(** * h5ncml: NcML generation from HDF5 metadata

    A shallow embedding of [h5ncml/h5ncml.py] and the properties of its
    four functions: the datatype translator [ncml_dtype], the
    dimension-scale classifier [is_dimscale], the attribute serializer
    [do_attributes] and the tree walker [objinfo] / [h5toncml].

    Python exceptions are values of [exn]; the XML elements that lxml
    mutates in place live in a store of numbered nodes, and the module
    level dictionary [grp_node] maps absolute HDF5 paths to node numbers.
    What h5py, numpy, os and urllib compute is taken from a [host]. *)

From Stdlib Require Import ZArith NArith Ascii String DecimalString.
From stdpp Require Import gmap strings list fin_maps.

Local Open Scope string_scope.
Local Open Scope Z_scope.

(** ** Python exceptions raised by the module *)

Inductive exn : Type :=
| TypeError (msg : string)
| NotImplementedError (msg : string)
| ValueError (msg : string)
| KeyError (key : string)
| IndexError (msg : string)
| RuntimeError (msg : string)
| AttributeError (msg : string)
| UnicodeDecodeError
| OSError (msg : string).

Inductive result (A : Type) : Type :=
| Ok (a : A)
| Raise (e : exn).
Arguments Ok {A} a.
Arguments Raise {A} e.

Definition is_ok {A} (r : result A) : bool :=
  match r with Ok _ => true | Raise _ => false end.

#[export] Instance result_ret : MRet result := λ A a, Ok a.
#[export] Instance result_bind : MBind result := λ A B k r,
  match r with Ok a => k a | Raise e => Raise e end.

(** ** HDF5 datatypes (the part of [h5py.h5t.TypeID] the module reads) *)

Module h5t.
(** Type class codes, as h5py exports them from [H5T_class_t]. *)
Definition INTEGER : Z := 0.
Definition FLOAT : Z := 1.
Definition TIME : Z := 2.
Definition STRING : Z := 3.
Definition BITFIELD : Z := 4.
Definition OPAQUE : Z := 5.
Definition COMPOUND : Z := 6.
Definition REFERENCE : Z := 7.
Definition ENUM : Z := 8.
Definition VLEN : Z := 9.
Definition ARRAY : Z := 10.
(** Sign codes of [H5T_sign_t]. *)
Definition SGN_NONE : Z := 0.
Definition SGN_2 : Z := 1.
End h5t.

Record TypeID : Type := mkTypeID {
  get_class : Z;
  get_size : Z;
  get_sign : Z
}.

(** [str] of a Python integer. *)
Definition str_int (z : Z) : string := NilZero.string_of_int (Z.to_int z).

(** [str] of a non-negative extent. *)
Definition str_N (n : N) : string := str_int (Z.of_N n).

(** The two literal dictionaries of [ncml_dtype], subscripted with
    [tobj.get_size()]; a missing key raises [KeyError]. *)
Definition int_size_table (size : Z) : result string :=
  if size =? 1 then Ok "byte"
  else if size =? 2 then Ok "short"
  else if size =? 4 then Ok "int"
  else if size =? 8 then Ok "long"
  else Raise (KeyError (str_int size)).

Definition float_size_table (size : Z) : result string :=
  if size =? 4 then Ok "float"
  else if size =? 8 then Ok "double"
  else Raise (KeyError (str_int size)).

(** [ncml_dtype(tobj)]: the NcML type name and the unsigned flag. *)
Definition ncml_dtype (tobj : TypeID) : result (string * bool) :=
  let type_cls := get_class tobj in
  if type_cls =? h5t.INTEGER then
    let unsigned := get_sign tobj =? h5t.SGN_NONE in
    match int_size_table (get_size tobj) with
    | Ok ncml_type => Ok (ncml_type, unsigned)
    | Raise e => Raise e
    end
  else if type_cls =? h5t.FLOAT then
    match float_size_table (get_size tobj) with
    | Ok ncml_type => Ok (ncml_type, false)
    | Raise e => Raise e
    end
  else if type_cls =? h5t.TIME then
    Raise (TypeError "H5T_TIME datatype not supported in NcML")
  else if type_cls =? h5t.STRING then Ok ("String", false)
  else if type_cls =? h5t.BITFIELD then
    Raise (TypeError "H5T_BITFIELD datatype not supported in NcML")
  else if type_cls =? h5t.OPAQUE then Ok ("opaque", false)
  else if type_cls =? h5t.COMPOUND then Ok ("Structure", false)
  else if type_cls =? h5t.REFERENCE then
    Raise (TypeError "H5T_REFERENCE datatype not supported in NcML")
  else if type_cls =? h5t.ENUM then
    Raise (NotImplementedError "H5T_ENUM datatype in NcML not supported yet")
  else if type_cls =? h5t.VLEN then
    Raise (NotImplementedError "H5T_VLEN datatype in NcML not supported yet")
  else if type_cls =? h5t.ARRAY then
    Raise (TypeError "H5T_ARRAY datatype not supported in NcML")
  else Raise (ValueError (str_int type_cls ++ ": Unknown type class")).

Local Close Scope Z_scope.

(** ** Attribute values, as h5py hands them to Python *)

(** A scalar: a byte string ([numpy.bytes_]), a text string ([str]), an
    integer, or a floating-point number kept as the text [str] prints. *)
Inductive h5scalar : Type :=
| SBytes (b : string)
| SStr (s : string)
| SInt (z : Z)
| SFloat (repr : string).

(** A value: a scalar, an array (elements in row-major order), an
    array of variable-length object-reference lists, each reference
    given by the absolute name of the object it points to, or
    [h5py.Empty], the value of a null dataspace. *)
Inductive h5value : Type :=
| VScalar (x : h5scalar)
| VArray (xs : list h5scalar)
| VRefs (rows : list (list string))
| VEmpty.

(** ** posixpath *)

Module pp.
Definition is_slash (c : ascii) : bool := Ascii.eqb c "/"%char.

(** [(p[:i], p[i:])] for [i = p.rfind('/') + 1]. *)
Fixpoint rsplit (p : string) : string * string :=
  match p with
  | EmptyString => (EmptyString, EmptyString)
  | String c r =>
      let '(h, t) := rsplit r in
      match h with
      | String _ _ => (String c h, t)
      | EmptyString =>
          if is_slash c then (String c EmptyString, r)
          else (EmptyString, String c r)
      end
  end.

Fixpoint all_slashes (s : string) : bool :=
  match s with
  | EmptyString => true
  | String c r => is_slash c && all_slashes r
  end.

(** [s.rstrip('/')] *)
Fixpoint rstrip (s : string) : string :=
  match s with
  | EmptyString => EmptyString
  | String c r =>
      match rstrip r with
      | EmptyString => if is_slash c then EmptyString else String c EmptyString
      | r' => String c r'
      end
  end.

Definition basename (p : string) : string := snd (rsplit p).

Definition dirname (p : string) : string :=
  let head := fst (rsplit p) in
  match head with
  | EmptyString => head
  | _ => if all_slashes head then head else rstrip head
  end.
End pp.

(** ** HDF5 objects, as the module sees them *)

(** An attribute: what reading [obj.attrs[name]] gives, a value or the
    exception h5py raises for a value it cannot convert; and the
    datatype and shape the low-level attribute handle reports, the shape
    being [None] for a null dataspace. *)
Record h5attr : Type := mkAttr {
  a_value : result h5value;
  a_type : TypeID;
  a_shape : option (list N)
}.

(** [obj.attrs.items()], in the host's iteration order: the view reads
    the value of an item when the iteration reaches it. *)
Definition items (attrs : list (string * h5attr))
  : list (string * result h5value) :=
  map (λ na, (na.1, a_value na.2)) attrs.

(** [name in obj.attrs] *)
Definition has_attr (attrs : list (string * h5attr)) (name : string) : bool :=
  existsb (λ na, String.eqb na.1 name) attrs.

(** [obj.attrs.get(name, default)], and [obj.attrs[name]] for a name
    that is there: the value is read, which may raise. *)
Fixpoint attrs_get (attrs : list (string * h5attr)) (name : string)
    (default : h5value) : result h5value :=
  match attrs with
  | [] => Ok default
  | (n, a) :: rest =>
      if String.eqb n name then a_value a else attrs_get rest name default
  end.

(** What [visititems] hands to its callback: a group, a dataset, or a
    committed datatype; [name] is [obj.name], the absolute path. *)
Inductive h5object : Type :=
| Group (name : string) (attrs : list (string * h5attr))
| Dataset (name : string) (attrs : list (string * h5attr))
    (dtype : TypeID) (shape : list N)
| Datatype (name : string) (attrs : list (string * h5attr)).

(** An open file: the root group's attributes and the objects in the
    order [visititems] visits them. *)
Record h5file : Type := mkFile {
  f_attrs : list (string * h5attr);
  f_objects : list h5object
}.

(** The library calls whose results the module only passes along. *)
Record host : Type := mkHost {
  (** [h5py.File(h5fname, 'r')]; [None] when the open fails *)
  File : string → option h5file;
  (** [bytes.decode('utf-8')]; [None] on malformed input *)
  utf8_decode : string → option string;
  (** [str(v)] of an element of a flattened numpy array *)
  np_str : h5value → string;
  (** the truth value of [v == b] for an array [v] and a byte string
      [b]: numpy compares elementwise and may refuse to give one *)
  array_eq : h5value → string → result bool;
  (** [f[dimlist[n][0]].name] for the value of [DIMENSION_LIST] *)
  dim_name : h5value → nat → result string;
  (** [str(obj)] of an h5py object *)
  obj_str : h5object → string;
  (** [urljoin('file:', pathname2url(abspath(h5fname)))] *)
  file_url : string → string
}.

(** ** The XML store and the interpreter state *)

Record element : Type := mkElement {
  tag : string;
  attrib : list (string * string);
  children : list nat
}.

Record pystate : Type := mkState {
  nodes : list element;            (* every lxml element created so far *)
  grp_node : gmap string nat;      (* the module-level dictionary *)
  open_files : nat                 (* file handles currently open *)
}.

(** A fresh interpreter, right after the module is imported. *)
Definition init_state : pystate := mkState [] ∅ 0.

Definition M (A : Type) : Type := pystate → result A * pystate.

#[export] Instance M_ret : MRet M := λ A a st, (Ok a, st).
#[export] Instance M_bind : MBind M := λ A B k m st,
  match m st with
  | (Ok a, st') => k a st'
  | (Raise e, st') => (Raise e, st')
  end.

Definition raise {A} (e : exn) : M A := λ st, (Raise e, st).
Definition lift {A} (r : result A) : M A := λ st, (r, st).

(** [for x in l: body(x)] *)
Fixpoint for_each {A} (body : A → M unit) (l : list A) : M unit :=
  match l with
  | [] => mret tt
  | x :: rest => body x ≫= λ _, for_each body rest
  end.

(** XML namespaces. *)
Definition ns_nc : string :=
  "http://www.unidata.ucar.edu/namespaces/netcdf/ncml-2.2".
Definition ns_xsi : string := "http://www.w3.org/2001/XMLSchema-instance".
Definition QName (ns local : string) : string := "{" ++ ns ++ "}" ++ local.

(** The element factory [E] and its four makers. *)
Definition E (local : string) (attrs : list (string * string)) : element :=
  mkElement (QName ns_nc local) attrs [].
Definition nc_group := E "group".
Definition nc_var := E "variable".
Definition nc_attr := E "attribute".
Definition nc_dim := E "dimension".

(** Creating an element allocates the next node number. *)
Definition new_element (e : element) : M nat := λ st,
  (Ok (length (nodes st)),
   mkState (nodes st ++ [e]) (grp_node st) (open_files st)).

(** [parent.append(child)] *)
Definition add_child (child : nat) (e : element) : element :=
  mkElement (tag e) (attrib e) (children e ++ [child]).

Definition append (parent child : nat) : M unit := λ st,
  (Ok tt,
   mkState (alter (add_child child) parent (nodes st))
           (grp_node st) (open_files st)).

(** [d[k] = v] on an attribute dictionary. *)
Fixpoint dict_set (d : list (string * string)) (k v : string)
  : list (string * string) :=
  match d with
  | [] => [(k, v)]
  | (k', v') :: rest =>
      if String.eqb k' k then (k, v) :: rest else (k', v') :: dict_set rest k v
  end.

Definition put_attrib (k v : string) (e : element) : element :=
  mkElement (tag e) (dict_set (attrib e) k v) (children e).

(** [elem.attrib[k] = v] *)
Definition set_attrib (elem : nat) (k v : string) : M unit := λ st,
  (Ok tt,
   mkState (alter (put_attrib k v) elem (nodes st))
           (grp_node st) (open_files st)).

(** [name in grp_node] *)
Definition grp_node_has (name : string) : M bool := λ st,
  (Ok (bool_decide (is_Some (grp_node st !! name))), st).

(** [grp_node[name] = elem] *)
Definition grp_node_set (name : string) (elem : nat) : M unit := λ st,
  (Ok tt, mkState (nodes st) (<[name := elem]> (grp_node st)) (open_files st)).

(** [grp_node[name]] *)
Definition grp_node_get (name : string) : M nat := λ st,
  match grp_node st !! name with
  | Some elem => (Ok elem, st)
  | None => (Raise (KeyError name), st)
  end.

(** ** The attribute serializer and the tree walker *)

(** The names [do_attributes] skips. *)
Definition internal_names : list string :=
  ["CLASS"; "REFERENCE_LIST"; "DIMENSION_LIST"; "NAME"].

Definition is_internal (aname : string) : bool :=
  existsb (String.eqb aname) internal_names.

(** [np.ravel(aval)] *)
Definition ravel (aval : h5value) : list h5value :=
  match aval with
  | VScalar x => [VScalar x]
  | VArray xs => map VScalar xs
  | VRefs rows => map (λ row, VRefs [row]) rows
  | VEmpty => [VEmpty]
  end.

(** The marker netCDF-4 writes into [NAME] of a dimension without a
    variable. *)
Definition dim_only_marker : string :=
  "This is a netCDF dimension but not a netCDF variable.".

(** [v.startswith(prefix)] for a byte-string [prefix]: defined on byte
    strings only; [str.startswith] rejects a bytes argument and the
    other values have no such method. *)
Definition startswith (v : h5value) (prefix : string) : result bool :=
  match v with
  | VScalar (SBytes b) => Ok (String.prefix prefix b)
  | VScalar (SStr _) =>
      Raise (TypeError
        "startswith first arg must be str or a tuple of str, not bytes")
  | _ => Raise (AttributeError "startswith")
  end.

(** [obj.shape[0]] *)
Definition first_extent (shape : list N) : result N :=
  match shape with
  | d :: _ => Ok d
  | [] => Raise (IndexError "tuple index out of range")
  end.

Section Walker.
Variable H : host.

(** [v == b] for a byte-string literal [b], as the truth value the [if]
    takes. A byte string is equal when it has the same content; a text
    string, a number and [h5py.Empty] never equal a byte string; for an
    array the answer is numpy's. *)
Definition eq_bytes (v : h5value) (b : string) : result bool :=
  match v with
  | VScalar (SBytes s) => Ok (String.eqb s b)
  | VScalar _ => Ok false
  | VEmpty => Ok false
  | VArray _ | VRefs _ => array_eq H v b
  end.

(** One turn of the loop of [is_dimscale]: the value of the item is
    read, the value of a [CLASS] item is compared, and the two flags
    are updated. *)
Definition is_dimscale_step (conds : bool * bool)
    (item : string * result h5value) : result (bool * bool) :=
  let '(cond1, cond2) := conds in
  v ← item.2;
  hit ← (if String.eqb item.1 "CLASS" then eq_bytes v "DIMENSION_SCALE"
         else Ok false);
  let cond1 := if hit : bool then true else cond1 in
  let cond2 := if String.eqb item.1 "REFERENCE_LIST" then true else cond2 in
  Ok (cond1, cond2).

Fixpoint is_dimscale_loop (conds : bool * bool)
    (attrs : list (string * result h5value)) : result (bool * bool) :=
  match attrs with
  | [] => Ok conds
  | item :: rest =>
      conds ← is_dimscale_step conds item; is_dimscale_loop conds rest
  end.

(** [is_dimscale(attrs)], over [attrs.items()]. The loop carries the
    two flags; [cond2] starts out [True]. *)
Definition is_dimscale (attrs : list (string * result h5value))
  : result bool :=
  conds ← is_dimscale_loop (false, true) attrs;
  Ok (if conds.1 && conds.2 then true else false).

(** [v.decode('utf-8')] *)
Definition py_decode (v : h5value) : result string :=
  match v with
  | VScalar (SBytes b) =>
      match utf8_decode H b with
      | Some s => Ok s
      | None => Raise UnicodeDecodeError
      end
  | _ => Raise (AttributeError "decode")
  end.

(** Lines 113-123: the text of an attribute's value. *)
Definition format_value (atype : string) (shape : option (list N))
    (aval : h5value) : result string :=
  if String.eqb atype "String" then
    match shape with
    | None => Raise (TypeError "object of type 'NoneType' has no len()")
    | Some [] => py_decode aval
    | Some _ => temp ← mapM py_decode (ravel aval); Ok (String.concat " " temp)
    end
  else Ok (String.concat " " (map (np_str H) (ravel aval))).

(** One turn of the loop of [do_attributes]. *)
Definition do_attribute (elem : nat) (item : string * h5attr) : M unit :=
  let '(aname, a) := item in
  aval ← lift (a_value a);
  if is_internal aname then mret tt
  else
    '(atype, is_unsign) ← lift (ncml_dtype (a_type a));
    aval ← lift (format_value atype (a_shape a) aval);
    axml ← new_element
      (nc_attr [("name", aname); ("type", atype); ("value", aval)]);
    _ ← (if is_unsign : bool then set_attrib axml "isUnsigned" "true"
         else mret tt);
    append elem axml.

Definition do_attributes (elem : nat) (attrs : list (string * h5attr))
  : M unit :=
  for_each (do_attribute elem) attrs.

(** Lines 161-169: the dataset's shape, as dimension names or extents. *)
Definition dataset_shape (attrs : list (string * h5attr)) (shape : list N)
  : result (list string) :=
  if has_attr attrs "DIMENSION_LIST" then
    mapM (λ n, dimlist ← attrs_get attrs "DIMENSION_LIST" (VArray []);
               dim_name H dimlist n)
         (seq 0 (length shape))
  else Ok (map str_N shape).

(** Lines 146-156: the dimension-scale part of the dataset branch.
    Returns [true] when the callback returns early. *)
Definition objinfo_dimension (name : string)
    (attrs : list (string * h5attr)) (shape : list N) : M bool :=
  dimscale ← lift (is_dimscale (items attrs));
  if dimscale : bool then
    len ← lift (first_extent shape);
    elem ← new_element
      (nc_dim [("name", pp.basename name); ("length", str_N len)]);
    parent ← grp_node_get (pp.dirname name);
    _ ← append parent elem;
    NAME ← lift (attrs_get attrs "NAME" (VScalar (SBytes "")));
    lift (startswith NAME dim_only_marker)
  else mret false.

(** Lines 158-180: the variable part of the dataset branch. *)
Definition objinfo_variable (name : string)
    (attrs : list (string * h5attr)) (dtype : TypeID) (shape : list N)
  : M unit :=
  '(dset_type, is_unsign) ← lift (ncml_dtype dtype);
  shape ← lift (dataset_shape attrs shape);
  elem ← new_element
    (nc_var [("name", pp.basename name); ("type", dset_type);
             ("shape", String.concat " " shape)]);
  _ ← (if is_unsign : bool then
         u ← new_element (nc_attr [("name", "_Unsigned"); ("value", "true")]);
         append elem u
       else mret tt);
  parent ← grp_node_get (pp.dirname name);
  _ ← append parent elem;
  do_attributes elem attrs.

(** [objinfo(name, obj)], the visitor callback. *)
Definition objinfo (obj : h5object) : M unit :=
  match obj with
  | Group name attrs =>
      seen ← grp_node_has name;
      if seen : bool then
        raise (RuntimeError (name ++ ": XML node already exists"))
      else
        elem ← new_element (nc_group [("name", pp.basename name)]);
        _ ← grp_node_set name elem;
        parent ← grp_node_get (pp.dirname name);
        _ ← append parent elem;
        do_attributes elem attrs
  | Dataset name attrs dtype shape =>
      done ← objinfo_dimension name attrs shape;
      if done : bool then mret tt
      else objinfo_variable name attrs dtype shape
  | Datatype name attrs =>
      raise (TypeError ("Unexpected HDF5 object: " ++ obj_str H obj))
  end.

(** [h5py.File(h5fname, 'r')] *)
Definition open_file (h5fname : string) : M h5file := λ st,
  match File H h5fname with
  | Some f =>
      (Ok f, mkState (nodes st) (grp_node st) (S (open_files st)))
  | None => (Raise (OSError h5fname), st)
  end.

(** [f.close()] *)
Definition close_file : M unit := λ st,
  (Ok tt, mkState (nodes st) (grp_node st) (pred (open_files st))).

(** [h5toncml(h5fname)]; the document is returned as its root node. *)
Definition h5toncml (h5fname : string) : M nat :=
  f ← open_file h5fname;
  root ← new_element (mkElement (QName ns_nc "netcdf") [] []);
  _ ← set_attrib root (QName ns_xsi "schemaLocation")
        "http://www.unidata.ucar.edu/schemas/netcdf/ncml-2.2.xsd";
  _ ← set_attrib root "location" (file_url H h5fname);
  _ ← grp_node_set "/" root;
  _ ← do_attributes root (f_attrs f);
  _ ← for_each objinfo (f_objects f);
  _ ← close_file;
  mret root.
End Walker.

(** ** A concrete host for running the model *)

Module Sample.
Definition np_str (v : h5value) : string :=
  match v with
  | VScalar (SInt z) => str_int z
  | VScalar (SFloat r) => r
  | VScalar (SStr s) => s
  | VScalar (SBytes b) => "b'" ++ b ++ "'"
  | _ => "[...]"
  end.

Definition dim_name (v : h5value) (n : nat) : result string :=
  match v with
  | VRefs rows =>
      match rows !! n with
      | Some (target :: _) => Ok target
      | _ => Raise (IndexError "index out of bounds")
      end
  | _ => Raise (IndexError "invalid index")
  end.

(** numpy on [v == b] under a truth test: the answer of the only
    element, false for no element, and no answer for more than one. *)
Definition array_eq (v : h5value) (b : string) : result bool :=
  let ambiguous :=
    ValueError ("The truth value of an array with more than one element " ++
                "is ambiguous. Use a.any() or a.all()") in
  match v with
  | VArray [SBytes s] => Ok (String.eqb s b)
  | VArray [_] | VArray [] => Ok false
  | VArray _ => Raise ambiguous
  | VRefs [_] | VRefs [] => Ok false
  | VRefs _ => Raise ambiguous
  | _ => Ok false
  end.

Definition obj_name (obj : h5object) : string :=
  match obj with
  | Group name _ | Dataset name _ _ _ | Datatype name _ => name
  end.

(** A host whose file system holds one file. *)
Definition one_file (path : string) (f : h5file) : host :=
  mkHost (λ p, if String.eqb p path then Some f else None)
         Some np_str array_eq dim_name obj_name (λ p, "file://" ++ p).

Definition i32 : TypeID := mkTypeID h5t.INTEGER 4 h5t.SGN_2.
Definition u64 : TypeID := mkTypeID h5t.INTEGER 8 h5t.SGN_NONE.
Definition f32 : TypeID := mkTypeID h5t.FLOAT 4 h5t.SGN_2.
Definition str_t : TypeID := mkTypeID h5t.STRING 16 h5t.SGN_2.
Definition time_t : TypeID := mkTypeID h5t.TIME 8 h5t.SGN_2.

(** An attribute h5py reads, of non-null dataspace. *)
Definition attr (v : h5value) (t : TypeID) (shape : list N) : h5attr :=
  mkAttr (Ok v) t (Some shape).

Definition bytes_attr (b : string) : h5attr := attr (VScalar (SBytes b)) str_t [].
Definition text_attr (s : string) : h5attr := attr (VScalar (SStr s)) str_t [].

(** An attribute of class [TIME]: h5py has no numpy type to read it as. *)
Definition time_attr : h5attr :=
  mkAttr (Raise (TypeError "No NumPy equivalent for TypeTimeID exists"))
         time_t (Some []).

(** The attributes netCDF-4 puts on a dimension without a variable. *)
Definition dim_only_attrs : list (string * h5attr) :=
  [("CLASS", bytes_attr "DIMENSION_SCALE");
   ("NAME", bytes_attr (dim_only_marker ++ " 5"));
   ("REFERENCE_LIST", attr (VArray []) (mkTypeID h5t.COMPOUND 16 0) [1%N])].

Definition lat : h5object := Dataset "/lat" dim_only_attrs f32 [5%N].

Definition temp : h5object :=
  Dataset "/temp" [("units", bytes_attr "K")] f32 [10%N].

Definition count : h5object :=
  Dataset "/g/count"
    [("scale", attr (VArray [SInt 1; SInt 2; SInt 3]) i32 [3%N])]
    u64 [2%N; 3%N].

Definition grp : h5object := Group "/g" [("title", bytes_attr "inner")].

Definition clock : h5object := Dataset "/clock" [] time_t [4%N].
End Sample.

(** The byte string the classifier looks for under [CLASS]. *)
Definition DIMENSION_SCALE : h5value := VScalar (SBytes "DIMENSION_SCALE").

(** ** Vocabulary of the properties *)

(** The nodes a document holds: those reachable from its root through
    [children]. *)
Inductive reach (ns : list element) (root : nat) : nat → Prop :=
| reach_root : reach ns root root
| reach_child (id c : nat) (e : element) :
    reach ns root id → ns !! id = Some e → c ∈ children e →
    reach ns root c.

(** Every entry of [grp_node] refers to an element that exists. *)
Definition wf (st : pystate) : Prop :=
  ∀ name id, grp_node st !! name = Some id → (id < length (nodes st))%nat.

(** An [<attribute>] element does not carry an internal name. *)
Definition attr_ok (e : element) : Prop :=
  tag e = QName ns_nc "attribute" →
  ∀ n, ("name", n) ∈ attrib e → is_internal n = false.

(** The nodes numbered from [base] on satisfy [P] and have children
    numbered from [base] on. *)
Definition news (P : element → Prop) (base : nat) (ns : list element) : Prop :=
  (base ≤ length ns)%nat
  ∧ ∀ id e, ns !! id = Some e → (base ≤ id)%nat →
      P e ∧ Forall (λ c, (base ≤ c)%nat) (children e).

(** The early return of the dataset branch: a dimension scale whose
    [NAME] starts with the marker. *)
Definition dimension_only (H : host) (attrs : list (string * h5attr)) : bool :=
  match is_dimscale H (items attrs) with
  | Ok true =>
      match attrs_get attrs "NAME" (VScalar (SBytes "")) with
      | Ok NAME =>
          match startswith NAME dim_only_marker with
          | Ok b => b
          | Raise _ => false
          end
      | Raise _ => false
      end
  | _ => false
  end.

(** The names of the groups among the visited objects. *)
Definition group_names (objs : list h5object) : list string :=
  omap (λ obj, match obj with Group name _ => Some name | _ => None end) objs.

(** Every path registered in [st] is registered in [st']. *)
Definition keeps_entries (st st' : pystate) : Prop :=
  ∀ k, is_Some (grp_node st !! k) → is_Some (grp_node st' !! k).

(** The state of [h5toncml] at line 209, before the root's attributes
    are serialized: file open, root element made, [/] registered. *)
Definition root_state (H : host) (h5fname : string) (st : pystate) : pystate :=
  let root := length (nodes st) in
  mkState
    (alter (put_attrib "location" (file_url H h5fname)) root
       (alter (put_attrib (QName ns_xsi "schemaLocation")
                 "http://www.unidata.ucar.edu/schemas/netcdf/ncml-2.2.xsd")
          root (nodes st ++ [mkElement (QName ns_nc "netcdf") [] []])%list))
    (<["/" := root]> (grp_node st))
    (S (open_files st)).

(** How the nodes of [ns] fare in [ns']: all are still there with the
    same tag and attributes, only [elem] may have gained children. *)
Definition extends (elem : nat) (ns ns' : list element) : Prop :=
  (length ns ≤ length ns')%nat
  ∧ ∀ id e, ns !! id = Some e →
      ∃ e', ns' !! id = Some e' ∧ tag e' = tag e ∧ attrib e' = attrib e
            ∧ (∃ extra, children e' = (children e ++ extra)%list)
            ∧ (id ≠ elem → e' = e).

(** The synthetic child of an unsigned variable. *)
Definition unsigned_attr : element :=
  nc_attr [("name", "_Unsigned"); ("value", "true")].

(** ** Vocabulary of the further properties *)

(** The [<attribute>] element line 126 makes, with [isUnsigned] added
    by line 128. *)
Definition attr_xml (aname atype aval : string) (is_unsign : bool) : element :=
  let axml := nc_attr [("name", aname); ("type", atype); ("value", aval)] in
  if is_unsign then put_attrib "isUnsigned" "true" axml else axml.

(** What one attribute contributes: its value is read first; then
    nothing when its name is internal, otherwise its element, or the
    exception of its type or value. *)
Definition attr_element (H : host) (item : string * h5attr)
  : result (option element) :=
  match a_value item.2 with
  | Raise e => Raise e
  | Ok v =>
      if is_internal item.1 then Ok None
      else
        match ncml_dtype (a_type item.2) with
        | Raise e => Raise e
        | Ok (atype, is_unsign) =>
            match format_value H atype (a_shape item.2) v with
            | Raise e => Raise e
            | Ok aval => Ok (Some (attr_xml item.1 atype aval is_unsign))
            end
        end
  end.

(** The elements of the attributes before the first one that raises,
    and that exception. *)
Fixpoint attr_elements (H : host) (attrs : list (string * h5attr))
  : list element * option exn :=
  match attrs with
  | [] => ([], None)
  | item :: rest =>
      match attr_element H item with
      | Raise e => ([], Some e)
      | Ok None => attr_elements H rest
      | Ok (Some x) =>
          let '(xs, err) := attr_elements H rest in (x :: xs, err)
      end
  end.

(** [children] gaining [extra] at the end. *)
Definition add_children (extra : list nat) (e : element) : element :=
  mkElement (tag e) (attrib e) (children e ++ extra).

(** The outcome of a statement sequence that stopped at [err], if any. *)
Definition outcome (err : option exn) : result unit :=
  match err with None => Ok tt | Some e => Raise e end.

(** [s] contains a slash. *)
Fixpoint has_slash (s : string) : bool :=
  match s with
  | EmptyString => false
  | String c r => pp.is_slash c || has_slash r
  end.

(** The nine NcML type names of the translator. *)
Definition ncml_type_names : list string :=
  ["byte"; "short"; "int"; "long"; "float"; "double"; "String"; "opaque";
   "Structure"].

(** What the callback needs of an object, whatever the state. *)
Definition convertible (H : host) (obj : h5object) : Prop :=
  match obj with
  | Group _ attrs => (attr_elements H attrs).2 = None
  | Dataset _ attrs dtype shape =>
      is_ok (is_dimscale H (items attrs)) = true
      ∧ (is_dimscale H (items attrs) = Ok true →
         shape ≠ []
         ∧ ∃ b, attrs_get attrs "NAME" (VScalar (SBytes ""))
                = Ok (VScalar (SBytes b)))
      ∧ (dimension_only H attrs = false →
         is_ok (ncml_dtype dtype) = true
         ∧ is_ok (dataset_shape H attrs shape) = true
         ∧ (attr_elements H attrs).2 = None)
  | Datatype _ _ => False
  end.

(** The store only grows: every element of [ns] is still in [ns'] with
    its tag and attributes, and its children are a prefix of what it has
    there. *)
Definition grows (ns ns' : list element) : Prop :=
  (length ns ≤ length ns')%nat
  ∧ ∀ id e, ns !! id = Some e →
      ∃ e', ns' !! id = Some e' ∧ tag e' = tag e ∧ attrib e' = attrib e
            ∧ children e `prefix_of` children e'.

(** ** The command line *)

(** The parsed arguments: the file name, and [--xpath] if given. *)
Record args : Type := mkArgs {
  h5f : string;
  xpath : option string
}.

(** The truth value of [args.xpath]: [None] and the empty string are
    false. *)
Definition xpath_given (a : args) : bool :=
  match xpath a with
  | Some (String _ _) => true
  | _ => false
  end.

Section Main.
Variable H : host.
(** [etree.tostring(ncmldoc, pretty_print=True, xml_declaration=True,
    encoding='UTF-8').decode('utf-8')] of the document rooted at a node *)
Variable tostring : list element → nat → string.

(** The text of the document as the store has it when it is printed. *)
Definition document_text (ncmldoc : nat) : M string := λ st,
  (Ok (tostring (nodes st) ncmldoc), st).

(** [main()], from the parsed arguments on; the result is the text it
    prints. *)
Definition main (a : args) : M string :=
  if xpath_given a then
    raise (NotImplementedError "NcML XPath not yet supported")
  else
    ncmldoc ← h5toncml H (h5f a);
    document_text ncmldoc.
End Main.

(** * Properties *)

Local Open Scope list_scope.
Local Open Scope nat_scope.

(** ** The dimension-scale classifier *)

Lemma eq_bytes_scalar H (x : h5scalar) (b : string) :
  ∃ c, eq_bytes H (VScalar x) b = Ok c ∧ (c = true ↔ x = SBytes b).
Proof.
  destruct x as [s| | |]; cbn; eexists; (split; [reflexivity|]);
    try (split; [discriminate | discriminate]).
  rewrite String.eqb_eq. split; congruence.
Qed.

(** The loop runs through exactly when every value can be read and
    every [CLASS] value can be compared; the second flag never leaves
    [True], and the first records whether a [CLASS] item compared equal
    went by. *)
Lemma is_dimscale_loop_spec H attrs (c1 : bool) (r : bool * bool) :
  is_dimscale_loop H (c1, true) attrs = Ok r
  ↔ (∀ n x, (n, x) ∈ attrs →
       ∃ v, x = Ok v
            ∧ (n = "CLASS"%string → ∃ c, eq_bytes H v "DIMENSION_SCALE" = Ok c))
    ∧ r.2 = true
    ∧ (r.1 = true
       ↔ c1 = true
         ∨ ∃ v, ("CLASS"%string, Ok v) ∈ attrs
                ∧ eq_bytes H v "DIMENSION_SCALE" = Ok true).
Proof.
  revert c1. induction attrs as [|[n x] attrs IH]; intros c1.
  - cbn [is_dimscale_loop]. split.
    + intros Hr. injection Hr as <-. cbn. split; [|split; [done|]].
      * intros n x Hin. by apply elem_of_nil in Hin.
      * split; [by left|]. intros [?|(v & Hin & _)]; [done|].
        by apply elem_of_nil in Hin.
    + intros (_ & H2 & H1). destruct r as [r1 r2]. cbn in *. subst r2.
      f_equal. f_equal. destruct r1, c1; try done.
      * destruct (proj1 H1 eq_refl) as [?|(v & Hin & _)]; [done|].
        by apply elem_of_nil in Hin.
      * symmetry. apply H1. by left.
  - cbn [is_dimscale_loop]. unfold is_dimscale_step at 1. cbn [fst snd].
    destruct x as [v|e]; cbn [mbind result_bind].
    2:{ split; [discriminate|]. intros (Hall & _).
        destruct (Hall n (Raise e)) as (v & Hv & _); [by left | discriminate]. }
    assert (Hc2 : (if String.eqb n "REFERENCE_LIST" then true else true) = true)
      by (by destruct (String.eqb n "REFERENCE_LIST")).
    destruct (String.eqb n "CLASS") eqn:Hn.
    + apply String.eqb_eq in Hn. subst n.
      destruct (eq_bytes H v "DIMENSION_SCALE") as [hit|e] eqn:Hhit;
        cbn [mbind result_bind].
      2:{ split; [discriminate|]. intros (Hall & _).
          destruct (Hall "CLASS"%string (Ok v)) as (v' & Hv & Hcmp); [by left|].
          injection Hv as <-. destruct (Hcmp eq_refl) as [c Hc]. congruence. }
      rewrite Hc2, IH. clear IH Hc2. split.
      * intros (Hall & H2 & H1). split; [|split; [exact H2|]].
        -- intros n x Hin. apply elem_of_cons in Hin as [Heq|Hin];
             [|by apply Hall].
           injection Heq as -> ->. exists v. split; [done|]. eauto.
        -- rewrite H1. split.
           ++ intros [Hc|(v' & Hin & Hv')].
              ** destruct hit; [|by left]. right. exists v. split; [by left|done].
              ** right. exists v'. split; [by right | done].
           ++ intros [Hc|(v' & Hin & Hv')].
              ** left. rewrite Hc. by destruct hit.
              ** apply elem_of_cons in Hin as [Heq|Hin].
                 --- injection Heq as <-. left. rewrite Hhit in Hv'.
                     by injection Hv' as ->.
                 --- right. by exists v'.
      * intros (Hall & H2 & H1). split; [|split; [exact H2|]].
        -- intros n x Hin. apply Hall. by right.
        -- rewrite H1. split.
           ++ intros [Hc|(v' & Hin & Hv')].
              ** left. rewrite Hc. by destruct hit.
              ** apply elem_of_cons in Hin as [Heq|Hin].
                 --- injection Heq as <-. left. rewrite Hhit in Hv'.
                     by injection Hv' as ->.
                 --- right. by exists v'.
           ++ intros [Hc|(v' & Hin & Hv')].
              ** destruct hit; [|by left]. right. exists v. split; [by left|done].
              ** right. exists v'. split; [by right | done].
    + cbn [mbind result_bind]. rewrite Hc2, IH. clear IH Hc2.
      apply String.eqb_neq in Hn. split.
      * intros (Hall & H2 & H1). split; [|split; [exact H2|]].
        -- intros n' x Hin. apply elem_of_cons in Hin as [Heq|Hin];
             [|by apply Hall].
           injection Heq as -> ->. exists v. split; [done|]. by intros ?.
        -- rewrite H1. split.
           ++ intros [Hc|(v' & Hin & Hv')]; [by left|].
              right. exists v'. split; [by right | done].
           ++ intros [Hc|(v' & Hin & Hv')]; [by left|].
              apply elem_of_cons in Hin as [Heq|Hin]; [congruence|].
              right. by exists v'.
      * intros (Hall & H2 & H1). split; [|split; [exact H2|]].
        -- intros n' x Hin. apply Hall. by right.
        -- rewrite H1. split.
           ++ intros [Hc|(v' & Hin & Hv')]; [by left|].
              apply elem_of_cons in Hin as [Heq|Hin]; [congruence|].
              right. by exists v'.
           ++ intros [Hc|(v' & Hin & Hv')]; [by left|].
              right. exists v'. split; [by right | done].
Qed.

Lemma is_dimscale_spec H attrs (b : bool) :
  is_dimscale H attrs = Ok b
  ↔ (∀ n x, (n, x) ∈ attrs →
       ∃ v, x = Ok v
            ∧ (n = "CLASS"%string → ∃ c, eq_bytes H v "DIMENSION_SCALE" = Ok c))
    ∧ (b = true
       ↔ ∃ v, ("CLASS"%string, Ok v) ∈ attrs
              ∧ eq_bytes H v "DIMENSION_SCALE" = Ok true).
Proof.
  unfold is_dimscale.
  destruct (is_dimscale_loop H (false, true) attrs) as [[r1 r2]|e] eqn:Hloop;
    cbn [mbind result_bind fst snd].
  - apply is_dimscale_loop_spec in Hloop as (Hall & H2 & H1).
    cbn in H1, H2. subst r2. rewrite andb_true_r. split.
    + intros Hb. split; [exact Hall|].
      assert (b = r1) as -> by (destruct r1; congruence).
      rewrite H1. split; [intros [?|?]; done | by right].
    + intros (_ & Hb). f_equal. destruct r1, b; try done.
      * symmetry. apply Hb. destruct (proj1 H1 eq_refl) as [?|?]; done.
      * apply H1. right. by apply Hb.
  - split; [discriminate|]. intros (Hall & Hb). exfalso.
    assert (Hex : ∃ r, is_dimscale_loop H (false, true) attrs = Ok r).
    { exists (b, true). apply is_dimscale_loop_spec. cbn.
      split; [exact Hall|]. split; [done|]. rewrite Hb.
      split; [by right | intros [?|?]; done]. }
    destruct Hex as [r Hr]. congruence.
Qed.

(** [C1] The classifier, for an attribute mapping whose values can all
    be read and whose [CLASS] value, if any, is a single value and not
    an array: it answers [True] when the mapping has a [CLASS] item
    whose value is the byte string [DIMENSION_SCALE], whatever else the
    mapping holds, so also when no [REFERENCE_LIST] item is present; and
    it answers [False] when the mapping has no such [CLASS] item. *)
Theorem is_dimscale_class_decides H (vals : list (string * h5value)) :
  let attrs := map (λ nv, (nv.1, Ok nv.2)) vals in
  (∀ v, ("CLASS"%string, v) ∈ vals → ∃ x, v = VScalar x) →
  (("CLASS"%string, DIMENSION_SCALE) ∈ vals → is_dimscale H attrs = Ok true)
  ∧ (("CLASS"%string, DIMENSION_SCALE) ∈ vals →
     "REFERENCE_LIST"%string ∉ map fst vals →
     is_dimscale H attrs = Ok true)
  ∧ (("CLASS"%string, DIMENSION_SCALE) ∉ vals →
     is_dimscale H attrs = Ok false).
Proof.
  intros attrs Hscalar.
  assert (Hin : ∀ n x, (n, x) ∈ attrs ↔ ∃ v, x = Ok v ∧ (n, v) ∈ vals).
  { intros n x. unfold attrs. rewrite list_elem_of_fmap. split.
    - intros ([n' v] & Heq & Hv). injection Heq as -> ->. by exists v.
    - intros (v & -> & Hv). by exists (n, v). }
  assert (Hread : ∀ n x, (n, x) ∈ attrs →
            ∃ v, x = Ok v
                 ∧ (n = "CLASS"%string →
                    ∃ c, eq_bytes H v "DIMENSION_SCALE" = Ok c)).
  { intros n x Hx. apply Hin in Hx as (v & -> & Hv). exists v.
    split; [done|]. intros ->. destruct (Hscalar v Hv) as [x ->].
    destruct (eq_bytes_scalar H x "DIMENSION_SCALE") as (c & Hc & _).
    by exists c. }
  assert (Hhit : (∃ v, ("CLASS"%string, Ok v) ∈ attrs
                       ∧ eq_bytes H v "DIMENSION_SCALE" = Ok true)
                 ↔ ("CLASS"%string, DIMENSION_SCALE) ∈ vals).
  { split.
    - intros (v & Hv & Heq). apply Hin in Hv as (v' & Hv' & Hv).
      injection Hv' as <-. destruct (Hscalar v Hv) as [x ->].
      destruct (eq_bytes_scalar H x "DIMENSION_SCALE") as (c & Hc & Hx).
      rewrite Hc in Heq. injection Heq as ->.
      by rewrite (proj1 Hx eq_refl) in Hv.
    - intros Hv. exists DIMENSION_SCALE. split; [|reflexivity].
      apply Hin. by exists DIMENSION_SCALE. }
  assert (Htrue : ("CLASS"%string, DIMENSION_SCALE) ∈ vals →
                  is_dimscale H attrs = Ok true).
  { intros Hv. apply is_dimscale_spec. split; [exact Hread|].
    split; [intros _; by apply Hhit | done]. }
  split; [exact Htrue|]. split; [intros Hv _; by apply Htrue|].
  intros Hnot. apply is_dimscale_spec. split; [exact Hread|].
  split; [discriminate|]. intros Hex. by apply Hhit in Hex.
Qed.

Lemma is_dimscale_class_decides_witness :
  let H := Sample.one_file "/a.h5" (mkFile [] []) in
  is_dimscale H [("CLASS", Ok DIMENSION_SCALE)] = Ok true
  ∧ is_dimscale H [("units", Ok (VScalar (SBytes "K")));
                   ("CLASS", Ok DIMENSION_SCALE)]
    = Ok true
  ∧ is_dimscale H [("REFERENCE_LIST", Ok (VArray []))] = Ok false.
Proof.
  intros H. split; [|split].
  - apply (proj1 (is_dimscale_class_decides H [("CLASS", DIMENSION_SCALE)]
                    ltac:(intros v Hv; apply list_elem_of_In in Hv;
                          simpl in Hv; destruct Hv as [Hv|[]];
                          injection Hv as <-; by eexists))).
    apply list_elem_of_In. simpl. left. reflexivity.
  - apply (proj1 (proj2 (is_dimscale_class_decides H
             [("units", VScalar (SBytes "K")); ("CLASS", DIMENSION_SCALE)]
             ltac:(intros v Hv; apply list_elem_of_In in Hv;
                   simpl in Hv; destruct Hv as [Hv|[Hv|[]]];
                   [discriminate Hv | injection Hv as <-; by eexists])))).
    + apply list_elem_of_In. simpl. right. left. reflexivity.
    + intros Hin. apply list_elem_of_In in Hin. simpl in Hin.
      destruct Hin as [Hin|[Hin|[]]]; discriminate Hin.
  - apply (proj2 (proj2 (is_dimscale_class_decides H
             [("REFERENCE_LIST", VArray [])]
             ltac:(intros v Hv; apply list_elem_of_In in Hv;
                   simpl in Hv; destruct Hv as [Hv|[]];
                   discriminate Hv)))).
    intros Hin. apply list_elem_of_In in Hin. simpl in Hin.
    destruct Hin as [Hin|[]]. discriminate Hin.
Defined.

(** Without these conditions the classifier need not answer at all. An
    attribute whose value cannot be read makes [attrs.items()] raise,
    also when [CLASS] is the byte string; and a [CLASS] value that is an
    array of two byte strings has no such item, yet the comparison
    yields an array whose truth value numpy refuses. *)
Lemma is_dimscale_may_raise :
  ¬ (∀ H attrs, ("CLASS"%string, Ok DIMENSION_SCALE) ∈ attrs →
                is_dimscale H attrs = Ok true)
  ∧ ¬ (∀ H attrs, ("CLASS"%string, Ok DIMENSION_SCALE) ∉ attrs →
                  is_dimscale H attrs = Ok false).
Proof.
  split; intros Hclaim.
  - specialize (Hclaim (Sample.one_file "/a.h5" (mkFile [] []))
                  [("CLASS"%string, Ok DIMENSION_SCALE);
                   ("when"%string, a_value Sample.time_attr)]).
    vm_compute in Hclaim.
    assert (Hin : ("CLASS"%string, Ok DIMENSION_SCALE)
                  ∈ [("CLASS"%string, Ok DIMENSION_SCALE);
                     ("when"%string, a_value Sample.time_attr)])
      by (apply list_elem_of_In; simpl; left; reflexivity).
    discriminate (Hclaim Hin).
  - specialize (Hclaim (Sample.one_file "/a.h5" (mkFile [] []))
                  [("CLASS"%string,
                    Ok (VArray [SBytes "DIMENSION_SCALE"; SBytes "x"]))]).
    assert (Hnot : ("CLASS"%string, Ok DIMENSION_SCALE)
                   ∉ [("CLASS"%string,
                       Ok (VArray [SBytes "DIMENSION_SCALE"; SBytes "x"]))]).
    { intros Hin. apply list_elem_of_In in Hin. simpl in Hin.
      destruct Hin as [Hin|[]]. discriminate Hin. }
    specialize (Hclaim Hnot). vm_compute in Hclaim. discriminate Hclaim.
Qed.

(** What the classifier does at these mappings, and at a [CLASS] value
    that is an array of one byte string, which compares like the byte
    string itself. *)
Example is_dimscale_unreadable_value :
  is_dimscale (Sample.one_file "/a.h5" (mkFile [] []))
    (items [("CLASS", Sample.bytes_attr "DIMENSION_SCALE");
            ("when", Sample.time_attr)])
  = Raise (TypeError "No NumPy equivalent for TypeTimeID exists").
Proof. reflexivity. Qed.

Example is_dimscale_array_of_two :
  is_dimscale (Sample.one_file "/a.h5" (mkFile [] []))
    [("CLASS", Ok (VArray [SBytes "DIMENSION_SCALE"; SBytes "x"]))]
  = Raise (ValueError
      "The truth value of an array with more than one element is ambiguous. Use a.any() or a.all()").
Proof. reflexivity. Qed.

Example is_dimscale_array_of_one :
  is_dimscale (Sample.one_file "/a.h5" (mkFile [] []))
    [("CLASS", Ok (VArray [SBytes "DIMENSION_SCALE"]))]
  = Ok true.
Proof. reflexivity. Qed.

(** ** The type translator *)

Local Open Scope Z_scope.

(** [C2] The translator yields the table: an integer of 1, 2, 4 or 8
    bytes is [byte], [short], [int] or [long], flagged unsigned exactly
    when the sign code is [SGN_NONE]; a float of 4 or 8 bytes is
    [float] or [double]; string, opaque and compound are [String],
    [opaque] and [Structure] at any size; and the flag is [false]
    whenever the class is not integer. *)
Theorem ncml_dtype_table (size sign : Z) :
  ncml_dtype (mkTypeID h5t.INTEGER 1 sign) = Ok ("byte", sign =? h5t.SGN_NONE)
  ∧ ncml_dtype (mkTypeID h5t.INTEGER 2 sign) = Ok ("short", sign =? h5t.SGN_NONE)
  ∧ ncml_dtype (mkTypeID h5t.INTEGER 4 sign) = Ok ("int", sign =? h5t.SGN_NONE)
  ∧ ncml_dtype (mkTypeID h5t.INTEGER 8 sign) = Ok ("long", sign =? h5t.SGN_NONE)
  ∧ ((sign =? h5t.SGN_NONE) = true ↔ sign = h5t.SGN_NONE)
  ∧ ncml_dtype (mkTypeID h5t.FLOAT 4 sign) = Ok ("float", false)
  ∧ ncml_dtype (mkTypeID h5t.FLOAT 8 sign) = Ok ("double", false)
  ∧ ncml_dtype (mkTypeID h5t.STRING size sign) = Ok ("String", false)
  ∧ ncml_dtype (mkTypeID h5t.OPAQUE size sign) = Ok ("opaque", false)
  ∧ ncml_dtype (mkTypeID h5t.COMPOUND size sign) = Ok ("Structure", false)
  ∧ (∀ tobj ncml_type unsigned,
       ncml_dtype tobj = Ok (ncml_type, unsigned) →
       get_class tobj ≠ h5t.INTEGER → unsigned = false).
Proof.
  repeat split; try reflexivity; try apply Z.eqb_eq.
  intros [cls sz sg] ty u Hr Hc. simpl in Hc.
  unfold ncml_dtype in Hr. simpl in Hr.
  destruct (cls =? h5t.INTEGER) eqn:E0; [apply Z.eqb_eq in E0; contradiction|].
  repeat match type of Hr with
  | (if ?b then _ else _) = _ => destruct b
  | match ?r with Ok _ => _ | Raise _ => _ end = _ => destruct r
  end; congruence.
Qed.

(** The translation succeeds on exactly the rows of the table. *)
Lemma ncml_dtype_ok_inv (tobj : TypeID) (ncml_type : string) (unsigned : bool) :
  ncml_dtype tobj = Ok (ncml_type, unsigned) →
  (get_class tobj = h5t.INTEGER
   ∧ unsigned = (get_sign tobj =? h5t.SGN_NONE)
   ∧ int_size_table (get_size tobj) = Ok ncml_type)
  ∨ (get_class tobj = h5t.FLOAT ∧ unsigned = false
     ∧ float_size_table (get_size tobj) = Ok ncml_type)
  ∨ (unsigned = false
     ∧ (get_class tobj, ncml_type) ∈
         [(h5t.STRING, "String"); (h5t.OPAQUE, "opaque");
          (h5t.COMPOUND, "Structure")]).
Proof.
  destruct tobj as [cls sz sg]. unfold ncml_dtype. simpl. intros Hr.
  destruct (cls =? h5t.INTEGER) eqn:E0.
  { apply Z.eqb_eq in E0. left.
    destruct (int_size_table sz); [|discriminate]. by injection Hr as -> ->. }
  destruct (cls =? h5t.FLOAT) eqn:E1.
  { apply Z.eqb_eq in E1. right; left.
    destruct (float_size_table sz); [|discriminate]. by injection Hr as -> ->. }
  right; right.
  repeat match type of Hr with
  | (if ?b then _ else _) = _ =>
      let E := fresh "E" in destruct b eqn:E; [apply Z.eqb_eq in E; subst cls|]
  end; try discriminate; injection Hr as <- <-;
  (split; [reflexivity|]); apply list_elem_of_In; simpl; tauto.
Qed.

(** [C6] Outside the mapped set the translator raises the exception of
    the class at hand: [TypeError] naming the class for time, bitfield,
    reference and array; [NotImplementedError] for enum and
    variable-length; [ValueError] for a class code it does not know; and
    [KeyError] for an integer or float whose size is none of 1, 2, 4, 8. *)
Theorem ncml_dtype_errors (size sign : Z) :
  ncml_dtype (mkTypeID h5t.TIME size sign)
    = Raise (TypeError "H5T_TIME datatype not supported in NcML")
  ∧ ncml_dtype (mkTypeID h5t.BITFIELD size sign)
    = Raise (TypeError "H5T_BITFIELD datatype not supported in NcML")
  ∧ ncml_dtype (mkTypeID h5t.REFERENCE size sign)
    = Raise (TypeError "H5T_REFERENCE datatype not supported in NcML")
  ∧ ncml_dtype (mkTypeID h5t.ARRAY size sign)
    = Raise (TypeError "H5T_ARRAY datatype not supported in NcML")
  ∧ ncml_dtype (mkTypeID h5t.ENUM size sign)
    = Raise (NotImplementedError "H5T_ENUM datatype in NcML not supported yet")
  ∧ ncml_dtype (mkTypeID h5t.VLEN size sign)
    = Raise (NotImplementedError "H5T_VLEN datatype in NcML not supported yet")
  ∧ (∀ cls, ¬ (h5t.INTEGER ≤ cls ≤ h5t.ARRAY) →
       ncml_dtype (mkTypeID cls size sign)
       = Raise (ValueError (str_int cls ++ ": Unknown type class")))
  ∧ (∀ cls, cls = h5t.INTEGER ∨ cls = h5t.FLOAT →
       size ∉ [1; 2; 4; 8] →
       ncml_dtype (mkTypeID cls size sign) = Raise (KeyError (str_int size))).
Proof.
  repeat split; try reflexivity.
  - intros cls Hc. unfold ncml_dtype, h5t.INTEGER, h5t.ARRAY in *. simpl.
    repeat match goal with
    | |- (if ?b then _ else _) = _ =>
        let E := fresh "E" in
        destruct b eqn:E; [apply Z.eqb_eq in E; unfold h5t.INTEGER, h5t.FLOAT,
          h5t.TIME, h5t.STRING, h5t.BITFIELD, h5t.OPAQUE, h5t.COMPOUND,
          h5t.REFERENCE, h5t.ENUM, h5t.VLEN, h5t.ARRAY in E; lia|]
    end. reflexivity.
  - intros cls Hc Hs.
    assert (size ≠ 1 ∧ size ≠ 2 ∧ size ≠ 4 ∧ size ≠ 8) as (H1 & H2 & H4 & H8).
    { repeat split; intros ->; apply Hs; apply list_elem_of_In; simpl; tauto. }
    apply Z.eqb_neq in H1, H2, H4, H8.
    destruct Hc as [-> | ->]; unfold ncml_dtype; simpl;
      unfold int_size_table, float_size_table; by rewrite ?H1, ?H2, ?H4, ?H8.
Qed.

Local Close Scope Z_scope.

(** ** Running the state monad *)

Lemma bind_run {A B} (m : M A) (k : A → M B) (st : pystate) :
  (m ≫= k) st =
  match m st with
  | (Ok a, st') => k a st'
  | (Raise e, st') => (Raise e, st')
  end.
Proof. reflexivity. Qed.

Lemma for_each_cons {A} (body : A → M unit) (x : A) (l : list A) st :
  for_each body (x :: l) st =
  match body x st with
  | (Ok _, st') => for_each body l st'
  | (Raise e, st') => (Raise e, st')
  end.
Proof. reflexivity. Qed.

Lemma for_each_app {A} (body : A → M unit) (l1 l2 : list A) st :
  for_each body (l1 ++ l2) st =
  match for_each body l1 st with
  | (Ok _, st') => for_each body l2 st'
  | (Raise e, st') => (Raise e, st')
  end.
Proof.
  revert st. induction l1 as [|x l1 IH]; intros st; [reflexivity|].
  rewrite <- app_comm_cons, !for_each_cons.
  destruct (body x st) as [[[]|e] st1]; [apply IH | reflexivity].
Qed.

(** A property of the state that every turn of a loop keeps is kept by
    the loop, whether it runs to the end or stops at an exception. *)
Lemma for_each_inv {A} (I : pystate → Prop) (body : A → M unit) (l : list A) :
  (∀ x st, x ∈ l → I st → I (body x st).2) →
  ∀ st, I st → I (for_each body l st).2.
Proof.
  induction l as [|x l IH]; intros Hb st HI; [exact HI|].
  rewrite for_each_cons.
  pose proof (Hb x st ltac:(left) HI) as H1.
  destruct (body x st) as [[[]|e] st1]; simpl in H1; [|exact H1].
  apply IH; [|exact H1]. intros y s Hy. apply Hb. by right.
Qed.

(** Symbolic execution of the monadic code at a state: [run] exposes
    the binds of a function body, [step] decides the innermost test. *)
Ltac run_prims :=
  unfold open_file, close_file, new_element, append, set_attrib, grp_node_has,
    grp_node_set, grp_node_get, raise, lift, mbind, M_bind, mret, M_ret;
  cbn beta iota delta [fst snd nodes grp_node open_files].

Ltac run :=
  unfold do_attribute, objinfo, objinfo_dimension, objinfo_variable, h5toncml;
  run_prims.

(** The callback, with the variable part kept folded. *)
Ltac run_objinfo := unfold objinfo, objinfo_dimension; run_prims.

Ltac scrutinee t :=
  lazymatch t with
  | context [match ?y with _ => _ end] => scrutinee y
  | _ => t
  end.

Ltac step :=
  match goal with
  | |- context [match ?x with _ => _ end] =>
      let y := scrutinee x in
      let E := fresh "E" in destruct y eqn:E
  end; cbn beta iota delta [fst snd nodes grp_node open_files].

(** ** The file handle *)

Lemma do_attribute_open_files H elem item st :
  open_files (do_attribute H elem item st).2 = open_files st.
Proof. destruct item as [aname a]. run. repeat step; reflexivity. Qed.

Lemma do_attributes_open_files H elem attrs st :
  open_files (do_attributes H elem attrs st).2 = open_files st.
Proof.
  apply (for_each_inv (λ s, open_files s = open_files st)); [|reflexivity].
  intros x s _ <-. apply do_attribute_open_files.
Qed.

Lemma objinfo_open_files H obj st :
  open_files (objinfo H obj st).2 = open_files st.
Proof.
  destruct obj; run; repeat step;
    rewrite ?do_attributes_open_files; reflexivity.
Qed.

Lemma visititems_open_files H objs st :
  open_files (for_each (objinfo H) objs st).2 = open_files st.
Proof.
  apply (for_each_inv (λ s, open_files s = open_files st)); [|reflexivity].
  intros x s _ <-. apply objinfo_open_files.
Qed.

(** [C3, as the code has it] [h5toncml] closes the file on the path that
    returns the document, and on no other: when the open itself fails
    nothing was acquired and the state is untouched; when any later step
    raises, no document is returned and the handle stays open. *)
Theorem h5toncml_closes_on_return_only H h5fname st :
  match h5toncml H h5fname st, File H h5fname with
  | (Ok _, st'), Some _ => open_files st' = open_files st
  | (Raise _, st'), Some _ => open_files st' = S (open_files st)
  | (r, st'), None => r = Raise (OSError h5fname) ∧ st' = st
  end.
Proof.
  run. destruct (File H h5fname) as [f|]; [|by split].
  cbn beta iota delta [fst snd nodes grp_node open_files].
  match goal with
  | |- context [do_attributes H ?e ?a ?s] =>
      pose proof (do_attributes_open_files H e a s) as Ha;
      destruct (do_attributes H e a s) as [[[]|ex] s1]
  end; simpl in Ha; [|exact Ha].
  pose proof (visititems_open_files H (f_objects f) s1) as Hv.
  destruct (for_each (objinfo H) (f_objects f) s1) as [[[]|ex] s2];
    simpl in *; rewrite Hv, Ha; reflexivity.
Qed.

(** A file with one dataset of class [TIME]: the conversion raises while
    the handle is open, and leaves it open. *)
Lemma h5toncml_leaks_handle :
  ¬ (∀ H h5fname st,
       open_files (h5toncml H h5fname st).2 = open_files st).
Proof.
  intros Hclaim.
  specialize (Hclaim (Sample.one_file "/a.h5" (mkFile [] [Sample.clock]))
                     "/a.h5" init_state).
  vm_compute in Hclaim. discriminate Hclaim.
Qed.

(** ** The module-level dictionary *)

Lemma do_attribute_grp_node H elem item st :
  grp_node (do_attribute H elem item st).2 = grp_node st.
Proof. destruct item as [aname a]. run. repeat step; reflexivity. Qed.

Lemma do_attributes_grp_node H elem attrs st :
  grp_node (do_attributes H elem attrs st).2 = grp_node st.
Proof.
  apply (for_each_inv (λ s, grp_node s = grp_node st)); [|reflexivity].
  intros x s _ <-. apply do_attribute_grp_node.
Qed.

(** The callback never removes an entry. *)
Lemma objinfo_keeps_entries H obj st k :
  is_Some (grp_node st !! k) → is_Some (grp_node (objinfo H obj st).2 !! k).
Proof.
  intros Hk. destruct obj; run; repeat step;
    rewrite ?do_attributes_grp_node; cbn [grp_node]; try exact Hk;
    (destruct (decide (name = k)) as [->|Hne];
     [rewrite lookup_insert_eq; eauto | by rewrite lookup_insert_ne]).
Qed.

Lemma visititems_keeps_entries H objs st k :
  is_Some (grp_node st !! k) →
  is_Some (grp_node (for_each (objinfo H) objs st).2 !! k).
Proof.
  apply (for_each_inv (λ s, is_Some (grp_node s !! k))).
  intros x s _. apply objinfo_keeps_entries.
Qed.

(** A group that was visited without an exception is registered. *)
Lemma objinfo_registers_group H name attrs st st' :
  objinfo H (Group name attrs) st = (Ok tt, st') →
  is_Some (grp_node st' !! name).
Proof.
  run. repeat step; try discriminate.
  intros Hrun.
  match type of Hrun with
  | do_attributes H ?e ?a ?s = _ =>
      pose proof (do_attributes_grp_node H e a s) as Hg
  end.
  rewrite Hrun in Hg. simpl in Hg. rewrite Hg, lookup_insert_eq. eauto.
Qed.

Lemma visititems_registers_groups H objs st st' g :
  for_each (objinfo H) objs st = (Ok tt, st') →
  g ∈ group_names objs → is_Some (grp_node st' !! g).
Proof.
  revert st. induction objs as [|obj objs IH]; intros st Hrun Hg.
  { by apply elem_of_nil in Hg. }
  rewrite for_each_cons in Hrun.
  destruct (objinfo H obj st) as [[[]|e] s1] eqn:Hobj; [|discriminate].
  unfold group_names in Hg. destruct obj as [name attrs| |];
    cbn [omap list_omap] in Hg; try (by eapply IH).
  apply elem_of_cons in Hg as [->|Hg]; [|by eapply IH].
  apply objinfo_registers_group in Hobj.
  pose proof (visititems_keeps_entries H objs s1 name Hobj) as Hk.
  by rewrite Hrun in Hk.
Qed.

(** Visiting a group whose path is registered raises, and so does any
    visit that gets that far. *)
Lemma visititems_registered_group_fails H objs st g :
  g ∈ group_names objs → is_Some (grp_node st !! g) →
  is_ok (for_each (objinfo H) objs st).1 = false.
Proof.
  revert st. induction objs as [|obj objs IH]; intros st Hg Hk.
  { by apply elem_of_nil in Hg. }
  rewrite for_each_cons.
  pose proof (objinfo_keeps_entries H obj st g Hk) as Hk1.
  destruct (objinfo H obj st) as [[[]|e] s1] eqn:Hobj; [|reflexivity].
  simpl in Hk1. unfold group_names in Hg.
  destruct obj as [name attrs| |]; cbn [omap list_omap] in Hg;
    try (by apply IH).
  apply elem_of_cons in Hg as [->|Hg]; [|by apply IH].
  exfalso. revert Hobj. run.
  rewrite (bool_decide_eq_true_2 _ Hk). discriminate.
Qed.

(** [h5toncml] in three stages: the root, its attributes, the visit. *)
Lemma h5toncml_stages H h5fname f st :
  File H h5fname = Some f →
  h5toncml H h5fname st =
  match do_attributes H (length (nodes st)) (f_attrs f)
          (root_state H h5fname st) with
  | (Ok _, s1) =>
      match for_each (objinfo H) (f_objects f) s1 with
      | (Ok _, s2) =>
          (Ok (length (nodes st)),
           mkState (nodes s2) (grp_node s2) (pred (open_files s2)))
      | (Raise e, s2) => (Raise e, s2)
      end
  | (Raise e, s1) => (Raise e, s1)
  end.
Proof. intros Hf. run. rewrite Hf. reflexivity. Qed.

(** Whether the serializer raises, and what, does not depend on the
    state or on the element it fills. *)
Lemma do_attribute_result H item e e' st st' :
  (do_attribute H e item st).1 = (do_attribute H e' item st').1.
Proof. destruct item as [aname a]. run. repeat step; reflexivity. Qed.

Lemma do_attributes_result H attrs e e' st st' :
  (do_attributes H e attrs st).1 = (do_attributes H e' attrs st').1.
Proof.
  unfold do_attributes. revert st st'.
  induction attrs as [|item attrs IH]; intros st st'; [reflexivity|].
  rewrite !for_each_cons.
  pose proof (do_attribute_result H item e e' st st') as Hr.
  destruct (do_attribute H e item st) as [[[]|x] s1],
           (do_attribute H e' item st') as [[[]|x'] s1'];
    simpl in Hr; try discriminate; [apply IH | exact Hr].
Qed.

(** A dataset that was visited without an exception had its parent
    registered, and is visited without an exception in every state that
    has its parent registered. *)
Lemma objinfo_dataset_parent H name attrs dtype shape st st1 :
  objinfo H (Dataset name attrs dtype shape) st = (Ok tt, st1) →
  is_Some (grp_node st !! pp.dirname name).
Proof.
  run. repeat step; try discriminate; intros _; eauto.
Qed.

Lemma objinfo_dataset_again H name attrs dtype shape st st1 st' :
  objinfo H (Dataset name attrs dtype shape) st = (Ok tt, st1) →
  is_Some (grp_node st' !! pp.dirname name) →
  (objinfo H (Dataset name attrs dtype shape) st').1 = Ok tt.
Proof.
  intros Hrun [p Hp]. revert Hrun. run.
  repeat step; try discriminate; try reflexivity; try congruence;
    intros Hrun;
    match goal with
    | |- (do_attributes H ?e' attrs ?s').1 = _ =>
        match type of Hrun with
        | do_attributes H ?e attrs ?s = _ =>
            rewrite (do_attributes_result H attrs e' e s' s), Hrun
        end
    end; reflexivity.
Qed.

Lemma objinfo_dataset_grp_node H name attrs dtype shape st :
  grp_node (objinfo H (Dataset name attrs dtype shape) st).2 = grp_node st.
Proof. run. repeat step; rewrite ?do_attributes_grp_node; reflexivity. Qed.

(** Objects visited before the first group: a visit that went through
    goes through again in any state that has kept the entries. *)
Lemma visititems_datasets_again H objs st st1 st' :
  group_names objs = [] →
  for_each (objinfo H) objs st = (Ok tt, st1) →
  keeps_entries st st' →
  ∃ st1', for_each (objinfo H) objs st' = (Ok tt, st1')
          ∧ keeps_entries st1 st1'.
Proof.
  revert st st'. induction objs as [|obj objs IH]; intros st st' Hg Hrun Hk.
  { injection Hrun as <-. by exists st'. }
  rewrite for_each_cons in Hrun.
  destruct (objinfo H obj st) as [[[]|e] s1] eqn:Hobj; [|discriminate].
  destruct obj as [name attrs|name attrs dtype shape|name attrs];
    [discriminate Hg| |revert Hobj; run; discriminate].
  pose proof (objinfo_dataset_parent _ _ _ _ _ _ _ Hobj) as Hp.
  pose proof (objinfo_dataset_again _ _ _ _ _ _ _ st' Hobj (Hk _ Hp)) as Hr.
  pose proof (objinfo_dataset_grp_node H name attrs dtype shape st) as G1.
  pose proof (objinfo_dataset_grp_node H name attrs dtype shape st') as G2.
  rewrite Hobj in G1. rewrite for_each_cons.
  destruct (objinfo H (Dataset name attrs dtype shape) st') as [r s1'].
  simpl in *. subst r.
  apply (IH s1 s1'); [exact Hg | exact Hrun |].
  intros k. rewrite G1, G2. apply Hk.
Qed.

(** The visited objects up to the first group. *)
Lemma group_names_first objs g gs :
  group_names objs = g :: gs →
  ∃ pre attrs post, objs = pre ++ Group g attrs :: post
                    ∧ group_names pre = [].
Proof.
  induction objs as [|obj objs IH]; [discriminate|].
  destruct obj as [name attrs|name attrs dtype shape|name attrs];
    unfold group_names; cbn [omap list_omap]; intros Hg.
  - injection Hg as -> Hg. by exists [], attrs, objs.
  - destruct (IH Hg) as (pre & a & post & -> & Hpre).
    by exists (Dataset name attrs dtype shape :: pre), a, post.
  - destruct (IH Hg) as (pre & a & post & -> & Hpre).
    by exists (Datatype name attrs :: pre), a, post.
Qed.

Lemma root_state_entries H h5fname st :
  keeps_entries st (root_state H h5fname st)
  ∧ is_Some (grp_node (root_state H h5fname st) !! "/").
Proof.
  split; [intros k Hk|]; cbn [root_state grp_node].
  - destruct (decide ("/" = k)) as [<-|Hne];
      [rewrite lookup_insert_eq; eauto | by rewrite lookup_insert_ne].
  - rewrite lookup_insert_eq. eauto.
Qed.

(** [C4, as the code has it] [grp_node] is module-level state that no
    call clears. A conversion that returns a document has kept every
    entry it found and has registered [/] and the path of every group
    of the file, and these entries stay. So a second conversion of the
    same file goes through again only when the file has no group;
    otherwise it raises the duplicate-node [RuntimeError] at the first
    group of the file. *)
Theorem grp_node_outlives_conversion H h5fname f st doc st1 :
  File H h5fname = Some f →
  h5toncml H h5fname st = (Ok doc, st1) →
  keeps_entries st st1
  ∧ is_Some (grp_node st1 !! "/")
  ∧ (∀ g, g ∈ group_names (f_objects f) → is_Some (grp_node st1 !! g))
  ∧ match group_names (f_objects f) with
    | [] => is_ok (h5toncml H h5fname st1).1 = true
    | g :: _ =>
        (h5toncml H h5fname st1).1
        = Raise (RuntimeError (g ++ ": XML node already exists"))
    end.
Proof.
  intros Hf Hrun. rewrite (h5toncml_stages H h5fname f st Hf) in Hrun.
  destruct (root_state_entries H h5fname st) as [K0 R0].
  set (s0 := root_state H h5fname st) in *.
  pose proof (do_attributes_grp_node H (length (nodes st)) (f_attrs f) s0) as Ga.
  destruct (do_attributes H (length (nodes st)) (f_attrs f) s0)
    as [[[]|e] sa] eqn:Hattrs; [|discriminate].
  simpl in Ga.
  destruct (for_each (objinfo H) (f_objects f) sa) as [[[]|e] sb] eqn:Hvisit;
    [|discriminate].
  injection Hrun as <- <-. cbn [grp_node].
  assert (Kab : keeps_entries sa sb).
  { intros k Hk. pose proof (visititems_keeps_entries H (f_objects f) sa k Hk).
    by rewrite Hvisit in *. }
  assert (K0b : keeps_entries st sb).
  { intros k Hk. apply Kab. rewrite Ga. by apply K0. }
  assert (Hgroups : ∀ g, g ∈ group_names (f_objects f) →
                         is_Some (grp_node sb !! g)).
  { intros g. by apply (visititems_registers_groups H _ sa). }
  split; [exact K0b|]. split; [apply Kab; by rewrite Ga|].
  split; [exact Hgroups|].
  (* the second call *)
  set (st1 := mkState (nodes sb) (grp_node sb) (pred (open_files sb))).
  rewrite (h5toncml_stages H h5fname f st1 Hf).
  destruct (root_state_entries H h5fname st1) as [K1 _].
  set (s0' := root_state H h5fname st1) in *.
  pose proof (do_attributes_grp_node H (length (nodes st1)) (f_attrs f) s0')
    as Ga'.
  pose proof (do_attributes_result H (f_attrs f) (length (nodes st1))
                (length (nodes st)) s0' s0) as Hr.
  rewrite Hattrs in Hr.
  destruct (do_attributes H (length (nodes st1)) (f_attrs f) s0')
    as [r sa']. simpl in Hr, Ga'. subst r.
  assert (Kaa' : keeps_entries sa sa').
  { intros k Hk. rewrite Ga'. apply K1. cbn [st1 grp_node]. by apply Kab. }
  assert (Kba' : keeps_entries sb sa').
  { intros k Hk. rewrite Ga'. by apply K1. }
  destruct (group_names (f_objects f)) as [|g gs] eqn:Hnames.
  - destruct (visititems_datasets_again H _ sa sb sa' Hnames Hvisit Kaa')
      as (sb' & -> & _). reflexivity.
  - destruct (group_names_first _ _ _ Hnames) as (pre & a & post & Hobjs & Hpre).
    rewrite Hobjs in Hvisit |- *. rewrite for_each_app in Hvisit |- *.
    destruct (for_each (objinfo H) pre sa) as [[[]|e] sp] eqn:Hp;
      [|discriminate].
    destruct (visititems_datasets_again H _ sa sp sa' Hpre Hp Kaa')
      as (sp' & Hp' & _).
    rewrite Hp', for_each_cons.
    assert (Hg : is_Some (grp_node sp' !! g)).
    { pose proof (visititems_keeps_entries H pre sa' g) as Hk.
      rewrite Hp' in Hk.
      apply Hk, Kba', Hgroups. left. }
    run. rewrite (bool_decide_eq_true_2 _ Hg). reflexivity.
Qed.

Lemma grp_node_outlives_conversion_witness :
  let H := Sample.one_file "/a.h5" (mkFile [] [Sample.grp]) in
  let st1 := (h5toncml H "/a.h5" init_state).2 in
  is_Some (grp_node st1 !! "/g")
  ∧ (h5toncml H "/a.h5" st1).1
    = Raise (RuntimeError "/g: XML node already exists").
Proof.
  intros H st1.
  destruct (grp_node_outlives_conversion H "/a.h5" (mkFile [] [Sample.grp])
              init_state 0 st1) as (_ & _ & Hg & H2).
  - reflexivity.
  - vm_compute. reflexivity.
  - split; [|exact H2]. apply Hg. apply list_elem_of_In. simpl. left.
    reflexivity.
Defined.

(** A file with one group: the first conversion returns a document, the
    second raises. *)
Lemma second_conversion_differs :
  ¬ (∀ H h5fname st,
       is_ok (h5toncml H h5fname (h5toncml H h5fname st).2).1
       = is_ok (h5toncml H h5fname st).1).
Proof.
  intros Hclaim.
  specialize (Hclaim (Sample.one_file "/a.h5" (mkFile [] [Sample.grp]))
                     "/a.h5" init_state).
  vm_compute in Hclaim. discriminate Hclaim.
Qed.

(** ** Elements made by a call *)

Section News.
Variable P : element → Prop.
Variable base : nat.
Hypothesis P_child : ∀ c e, P e → P (add_child c e).
Hypothesis P_put : ∀ v e, P e → P (put_attrib "isUnsigned" v e).

Lemma news_length ns : news P base ns → base ≤ length ns.
Proof. by intros [? _]. Qed.

Lemma news_new ns e :
  news P base ns → P e → children e = [] → news P base (ns ++ [e]).
Proof.
  intros [Hlen Hns] He Hc. split; [rewrite length_app; lia|].
  intros id e' Hid Hb.
  apply lookup_snoc_Some in Hid as [[_ Hid]|[_ <-]]; [by apply (Hns id)|].
  split; [exact He | rewrite Hc; constructor].
Qed.

Lemma news_alter f p ns :
  (∀ e, P e → Forall (λ c, base ≤ c) (children e) →
        P (f e) ∧ Forall (λ c, base ≤ c) (children (f e))) →
  news P base ns → news P base (alter f p ns).
Proof.
  intros Hf [Hlen Hns]. split; [by rewrite length_alter|].
  intros id e Hid Hb. rewrite list_lookup_alter in Hid.
  destruct (decide (p = id)) as [->|_]; [|by apply (Hns id)].
  destruct (ns !! id) as [e0|] eqn:E0; [|discriminate].
  injection Hid as <-. destruct (Hns id e0 E0 Hb). by apply Hf.
Qed.

Lemma news_add_child ns p c :
  news P base ns → base ≤ c → news P base (alter (add_child c) p ns).
Proof.
  intros Hns Hc. apply news_alter; [|exact Hns].
  intros e He Hch. split; [by apply P_child|].
  cbn [add_child children]. apply Forall_app. split; [exact Hch|].
  by repeat constructor.
Qed.

Lemma news_put ns p v :
  news P base ns → news P base (alter (put_attrib "isUnsigned" v) p ns).
Proof.
  apply news_alter. intros e He Hch. split; [by apply P_put | exact Hch].
Qed.

Create HintDb news.
Hint Resolve news_new news_add_child news_put news_length : news.

Hypothesis P_attr : ∀ aname atype aval,
  is_internal aname = false →
  P (nc_attr [("name", aname); ("type", atype); ("value", aval)]).

Lemma do_attribute_news H elem item st :
  news P base (nodes st) → news P base (nodes (do_attribute H elem item st).2).
Proof.
  destruct item as [aname a]. intros Hst. pose proof (news_length _ Hst).
  run. repeat step; auto 6 with news.
Qed.

Lemma do_attributes_news H elem attrs st :
  news P base (nodes st) →
  news P base (nodes (do_attributes H elem attrs st).2).
Proof.
  apply (for_each_inv (λ s, news P base (nodes s))).
  intros x s _. apply do_attribute_news.
Qed.

Hypothesis P_unsigned :
  P (nc_attr [("name", "_Unsigned"); ("value", "true")]).
Hypothesis P_var : ∀ attrs, P (nc_var attrs).

Lemma objinfo_variable_news H name attrs dtype shape st :
  news P base (nodes st) →
  news P base (nodes (objinfo_variable H name attrs dtype shape st).2).
Proof.
  intros Hst. pose proof (news_length _ Hst).
  run. repeat step; try apply do_attributes_news;
    cbn [nodes]; rewrite ?length_app; cbn [length];
    auto 8 with news lia.
Qed.

Hypothesis P_group : ∀ attrs, P (nc_group attrs).
Hypothesis P_dim : ∀ attrs, P (nc_dim attrs).

Lemma objinfo_news H obj st :
  news P base (nodes st) → news P base (nodes (objinfo H obj st).2).
Proof.
  intros Hst. pose proof (news_length _ Hst).
  destruct obj; run_objinfo; repeat step;
    try apply do_attributes_news; try apply objinfo_variable_news;
    cbn [nodes]; rewrite ?length_app; cbn [length];
    auto 8 with news lia.
Qed.

Lemma visititems_news H objs st :
  news P base (nodes st) →
  news P base (nodes (for_each (objinfo H) objs st).2).
Proof.
  apply (for_each_inv (λ s, news P base (nodes s))).
  intros x s _. apply objinfo_news.
Qed.

(** From a node numbered [base] or later, only such nodes are reached. *)
Lemma news_reach ns root id :
  news P base ns → base ≤ root → reach ns root id → base ≤ id.
Proof.
  intros [_ Hns] Hroot. induction 1 as [|id c e _ IH Hid Hc]; [exact Hroot|].
  destruct (Hns id e Hid IH) as [_ Hch].
  rewrite Forall_forall in Hch. by apply Hch.
Qed.
End News.

(** ** Internal attributes *)

Lemma is_internal_spec n : is_internal n = true ↔ n ∈ internal_names.
Proof.
  unfold is_internal. rewrite existsb_exists. split.
  - intros (x & Hx & Heq). apply String.eqb_eq in Heq. subst x.
    by apply list_elem_of_In.
  - intros Hn. exists n. split; [by apply list_elem_of_In|].
    apply String.eqb_refl.
Qed.

Lemma dict_set_other d k v k' x :
  k ≠ k' → (k', x) ∈ dict_set d k v → (k', x) ∈ d.
Proof.
  intros Hne. induction d as [|[k0 v0] d IH]; cbn [dict_set].
  - intros Hin. apply list_elem_of_singleton in Hin. congruence.
  - destruct (String.eqb k0 k) eqn:E.
    + rewrite !elem_of_cons. intros [Hin|Hin]; [congruence | by right].
    + rewrite !elem_of_cons. intros [Hin|Hin]; [by left | right; by apply IH].
Qed.

Lemma attr_ok_add_child c e : attr_ok e → attr_ok (add_child c e).
Proof. intros He. exact He. Qed.

Lemma attr_ok_put k v e : k ≠ "name" → attr_ok e → attr_ok (put_attrib k v e).
Proof.
  intros Hk He Htag n Hn. apply (He Htag).
  by apply (dict_set_other _ k v).
Qed.

Lemma attr_ok_other_tag e : tag e ≠ QName ns_nc "attribute" → attr_ok e.
Proof. intros Hne Htag. contradiction. Qed.

Lemma attr_ok_attr aname atype aval :
  is_internal aname = false →
  attr_ok (nc_attr [("name", aname); ("type", atype); ("value", aval)]).
Proof.
  intros Hint _ n Hn. cbn [nc_attr E attrib] in Hn.
  repeat (apply elem_of_cons in Hn as [Hn|Hn]; [congruence|]).
  by apply elem_of_nil in Hn.
Qed.

Lemma attr_ok_unsigned :
  attr_ok (nc_attr [("name", "_Unsigned"); ("value", "true")]).
Proof.
  intros _ n Hn. cbn [nc_attr E attrib] in Hn.
  apply elem_of_cons in Hn as [Hn|Hn]; [by injection Hn as ->|].
  apply elem_of_cons in Hn as [Hn|Hn]; [discriminate|].
  by apply elem_of_nil in Hn.
Qed.

(** A call leaves only well-named [<attribute>] elements among the
    nodes it makes. *)
Lemma h5toncml_news H h5fname st root st' :
  h5toncml H h5fname st = (Ok root, st') →
  root = length (nodes st) ∧ news attr_ok root (nodes st').
Proof.
  intros Hrun. destruct (File H h5fname) as [f|] eqn:Hf;
    [|revert Hrun; run; rewrite Hf; discriminate].
  rewrite (h5toncml_stages H h5fname f st Hf) in Hrun.
  assert (H0 : news attr_ok (length (nodes st))
                 (nodes (root_state H h5fname st))).
  { cbn [root_state nodes].
    do 2 (apply news_alter;
      [intros e He Hc; split; [by apply attr_ok_put | exact Hc]|]).
    split; [rewrite length_app; lia|]. intros id e Hid Hb.
    apply lookup_snoc_Some in Hid as [[? _]|[_ <-]]; [lia|].
    split; [by apply attr_ok_other_tag | constructor]. }
  assert (Hattrs : ∀ s, news attr_ok (length (nodes st)) (nodes s) →
    news attr_ok (length (nodes st))
      (nodes (do_attributes H (length (nodes st)) (f_attrs f) s).2)).
  { intros s. apply do_attributes_news;
      auto using attr_ok_add_child, attr_ok_put, attr_ok_attr. }
  specialize (Hattrs _ H0).
  destruct (do_attributes H (length (nodes st)) (f_attrs f)
              (root_state H h5fname st)) as [[[]|e] sa]; [|discriminate].
  assert (Hvisit : news attr_ok (length (nodes st))
            (nodes (for_each (objinfo H) (f_objects f) sa).2)).
  { apply visititems_news;
      auto using attr_ok_add_child, attr_ok_put, attr_ok_attr,
        attr_ok_unsigned;
      intros attrs; by apply attr_ok_other_tag. }
  destruct (for_each (objinfo H) (f_objects f) sa) as [[[]|e] sb];
    [|discriminate].
  injection Hrun as <- <-. by split.
Qed.

(** [C7] In the document [h5toncml] returns, no [<attribute>] element is
    named [CLASS], [REFERENCE_LIST], [DIMENSION_LIST] or [NAME]:
    whatever object it was serialized for, the root included. *)
Theorem internal_attributes_suppressed H h5fname st root st' :
  h5toncml H h5fname st = (Ok root, st') →
  ∀ id e n,
    reach (nodes st') root id → nodes st' !! id = Some e →
    tag e = QName ns_nc "attribute" → ("name", n) ∈ attrib e →
    n ∉ internal_names.
Proof.
  intros Hrun id e n Hreach Hid Htag Hn Hint.
  destruct (h5toncml_news _ _ _ _ _ Hrun) as [_ Hnews].
  pose proof (news_reach _ _ _ _ _ Hnews (le_n _) Hreach) as Hb.
  destruct Hnews as [_ Hns]. destruct (Hns id e Hid Hb) as [Hok _].
  apply is_internal_spec in Hint. rewrite (Hok Htag n Hn) in Hint.
  discriminate.
Qed.

Lemma internal_attributes_suppressed_witness :
  let H := Sample.one_file "/a.h5"
             (mkFile [("NAME", Sample.bytes_attr "root");
                      ("title", Sample.bytes_attr "demo")] [Sample.temp]) in
  let st' := (h5toncml H "/a.h5" init_state).2 in
  h5toncml H "/a.h5" init_state = (Ok 0, st')
  ∧ reach (nodes st') 0 1
  ∧ "title" ∉ internal_names.
Proof.
  intros H st'.
  assert (Hrun : h5toncml H "/a.h5" init_state = (Ok 0, st'))
    by (vm_compute; reflexivity).
  assert (Hreach : reach (nodes st') 0 1).
  { eapply (reach_child _ _ 0 1); [constructor | vm_compute; reflexivity|].
    apply list_elem_of_In. simpl. left. reflexivity. }
  split; [exact Hrun|]. split; [exact Hreach|].
  eapply (internal_attributes_suppressed H "/a.h5" init_state 0 st' Hrun 1).
  - exact Hreach.
  - vm_compute. reflexivity.
  - reflexivity.
  - apply list_elem_of_In. simpl. left. reflexivity.
Defined.

(** ** Dimension scales *)

(** [C9] The extent of the first axis of a dimension scale is read
    unguarded: at a dimension scale of scalar shape the callback raises
    [IndexError] before any element is made, the visit stops there, and
    [h5toncml] raises it in the state in which the dataset was reached. *)
Theorem scalar_dimension_scale_aborts H name attrs dtype st :
  is_dimscale H (items attrs) = Ok true →
  let d := Dataset name attrs dtype [] in
  let err := IndexError "tuple index out of range" in
  objinfo H d st = (Raise err, st)
  ∧ (∀ pre post s0,
       for_each (objinfo H) pre s0 = (Ok tt, st) →
       for_each (objinfo H) (pre ++ d :: post) s0 = (Raise err, st))
  ∧ (∀ h5fname f pre post s0 sa,
       File H h5fname = Some f → f_objects f = pre ++ d :: post →
       do_attributes H (length (nodes s0)) (f_attrs f)
         (root_state H h5fname s0) = (Ok tt, sa) →
       for_each (objinfo H) pre sa = (Ok tt, st) →
       h5toncml H h5fname s0 = (Raise err, st)).
Proof.
  intros Hdim d err.
  assert (Hobj : objinfo H d st = (Raise err, st)).
  { unfold d. run. rewrite Hdim. reflexivity. }
  assert (Hvisit : ∀ pre post s0,
            for_each (objinfo H) pre s0 = (Ok tt, st) →
            for_each (objinfo H) (pre ++ d :: post) s0 = (Raise err, st)).
  { intros pre post s0 Hpre.
    rewrite for_each_app, Hpre, for_each_cons, Hobj. reflexivity. }
  split; [exact Hobj|]. split; [exact Hvisit|].
  intros h5fname f pre post s0 sa Hf Hobjs Hattrs Hpre.
  rewrite (h5toncml_stages H h5fname f s0 Hf), Hattrs, Hobjs.
  rewrite (Hvisit pre post sa Hpre). reflexivity.
Qed.

Lemma scalar_dimension_scale_aborts_witness :
  let H := Sample.one_file "/a.h5" (mkFile [] []) in
  is_dimscale H (items Sample.dim_only_attrs) = Ok true
  ∧ objinfo H (Dataset "/lat" Sample.dim_only_attrs Sample.f32 []) init_state
    = (Raise (IndexError "tuple index out of range"), init_state).
Proof.
  intros H. split; [reflexivity|].
  apply (scalar_dimension_scale_aborts H "/lat" Sample.dim_only_attrs
           Sample.f32 init_state).
  reflexivity.
Defined.

(** [C5, as the code has it] A dimension scale with at least one axis
    whose [NAME] attribute is a byte string starting with the marker,
    visited while its parent group is registered: the callback makes one
    [<dimension>] element, named by the basename and with the extent of
    the first axis as its length, appends it to the parent's element and
    returns. Nothing else changes: no [<variable>] and no [<attribute>]
    element is made. *)
Theorem dimension_only_dataset H name attrs dtype d shape st parent b :
  is_dimscale H (items attrs) = Ok true →
  attrs_get attrs "NAME" (VScalar (SBytes "")) = Ok (VScalar (SBytes b)) →
  String.prefix dim_only_marker b = true →
  grp_node st !! pp.dirname name = Some parent →
  objinfo H (Dataset name attrs dtype (d :: shape)) st
  = (Ok tt,
     mkState
       (alter (add_child (length (nodes st))) parent
          (nodes st ++ [nc_dim [("name", pp.basename name);
                                ("length", str_N d)]]))
       (grp_node st) (open_files st)).
Proof.
  intros Hdim Hname Hprefix Hparent. run.
  rewrite Hdim. cbn [first_extent].
  cbn beta iota delta [fst snd nodes grp_node open_files].
  rewrite Hparent, Hname. cbn [startswith]. rewrite Hprefix. reflexivity.
Qed.

Lemma dimension_only_dataset_witness :
  let H := Sample.one_file "/a.h5" (mkFile [] [Sample.lat]) in
  let root := mkElement (QName ns_nc "netcdf") [] [] in
  objinfo H Sample.lat (mkState [root] {["/" := 0]} 0)
  = (Ok tt,
     mkState [add_child 1 root; nc_dim [("name", "lat"); ("length", "5")]]
             {["/" := 0]} 0).
Proof.
  intros H root.
  exact (dimension_only_dataset H "/lat" Sample.dim_only_attrs Sample.f32
           5%N [] (mkState [root] {["/" := 0]} 0) 0
           (dim_only_marker ++ " 5")%string
           eq_refl eq_refl eq_refl eq_refl).
Defined.

(** The same dataset with scalar shape: no [<dimension>] element at all. *)
Lemma dimension_only_fails_without_axis :
  ¬ (∀ H name attrs dtype shape st parent aname a b,
       is_dimscale H (items attrs) = Ok true →
       (aname, a) ∈ attrs → a_value a = Ok (VScalar (SBytes b)) →
       String.prefix dim_only_marker b = true →
       grp_node st !! pp.dirname name = Some parent →
       ∃ len,
         objinfo H (Dataset name attrs dtype shape) st
         = (Ok tt,
            mkState
              (alter (add_child (length (nodes st))) parent
                 (nodes st ++ [nc_dim [("name", pp.basename name);
                                       ("length", len)]]))
              (grp_node st) (open_files st))).
Proof.
  intros Hclaim.
  destruct (Hclaim (Sample.one_file "/a.h5" (mkFile [] []))
              "/lat" Sample.dim_only_attrs Sample.f32 []
              (mkState [mkElement (QName ns_nc "netcdf") [] []] {["/" := 0]} 0)
              0 "NAME" (Sample.bytes_attr (dim_only_marker ++ " 5"))
              (dim_only_marker ++ " 5")%string)
    as [len Hlen]; try reflexivity.
  - apply list_elem_of_In. simpl. right. left. reflexivity.
  - vm_compute in Hlen. discriminate Hlen.
Qed.

(** The marker under another name than [NAME] is not looked at: the
    dataset gets its [<dimension>] and its [<variable>]. *)
Example marker_outside_NAME :
  let H := Sample.one_file "/a.h5" (mkFile [] []) in
  let attrs := [("CLASS", Sample.bytes_attr "DIMENSION_SCALE");
                ("comment", Sample.bytes_attr dim_only_marker)] in
  map tag (nodes (objinfo H (Dataset "/lat" attrs Sample.f32 [5%N])
                    (mkState [mkElement (QName ns_nc "netcdf") [] []]
                             {["/" := 0]} 0)).2)
  = [QName ns_nc "netcdf"; QName ns_nc "dimension"; QName ns_nc "variable";
     QName ns_nc "attribute"].
Proof. vm_compute. reflexivity. Qed.

(** ** What the serializer does to the store *)

Lemma extends_refl elem ns : extends elem ns ns.
Proof.
  split; [done|]. intros id e Hid. exists e. repeat split; try done.
  exists []. by rewrite app_nil_r.
Qed.

Lemma extends_new elem ns ns' e :
  extends elem ns ns' → extends elem ns (ns' ++ [e]).
Proof.
  intros [Hlen Hns]. split; [rewrite length_app; lia|].
  intros id e0 Hid. destruct (Hns id e0 Hid) as (e' & Hid' & Hrest).
  exists e'. split; [by apply lookup_app_l_Some | exact Hrest].
Qed.

(** Changing a node that [ns] does not have. *)
Lemma extends_alter_new elem ns ns' f p :
  extends elem ns ns' → length ns ≤ p → extends elem ns (alter f p ns').
Proof.
  intros [Hlen Hns] Hp. split; [by rewrite length_alter|].
  intros id e0 Hid. destruct (Hns id e0 Hid) as (e' & Hid' & Hrest).
  exists e'. split; [|exact Hrest].
  rewrite list_lookup_alter_ne; [exact Hid'|].
  apply lookup_lt_Some in Hid. lia.
Qed.

Lemma extends_add_child elem ns ns' c :
  extends elem ns ns' → extends elem ns (alter (add_child c) elem ns').
Proof.
  intros [Hlen Hns]. split; [by rewrite length_alter|].
  intros id e0 Hid.
  destruct (Hns id e0 Hid) as (e' & Hid' & Ht & Ha & [extra Hc] & Hsame).
  rewrite list_lookup_alter. destruct (decide (elem = id)) as [->|Hne].
  - rewrite Hid'. exists (add_child c e'). repeat split; try done.
    exists (extra ++ [c]). cbn [add_child children].
    by rewrite Hc, app_assoc.
  - exists e'. repeat split; try done; eauto.
Qed.

Lemma do_attribute_extends H elem item ns st :
  extends elem ns (nodes st) →
  extends elem ns (nodes (do_attribute H elem item st).2).
Proof.
  destruct item as [aname a]. intros Hst. pose proof (proj1 Hst).
  run. repeat step; try exact Hst; cbn [nodes];
    apply extends_add_child; try apply extends_alter_new;
    try apply extends_new; try exact Hst; lia.
Qed.

Lemma do_attributes_extends H elem attrs st :
  extends elem (nodes st) (nodes (do_attributes H elem attrs st).2).
Proof.
  apply (for_each_inv (λ s, extends elem (nodes st) (nodes s)));
    [|apply extends_refl].
  intros x s _. apply do_attribute_extends.
Qed.

(** ** Variables *)

(** The dimension-scale part returns whether the dataset is a dimension
    only, and registers nothing. *)
Lemma objinfo_dimension_ok H name attrs shape st done s0 :
  objinfo_dimension H name attrs shape st = (Ok done, s0) →
  done = dimension_only H attrs
  ∧ grp_node s0 = grp_node st
  ∧ length (nodes st) ≤ length (nodes s0).
Proof.
  unfold dimension_only. run.
  repeat step; try discriminate; intros Heq; injection Heq as <- <-;
    cbn [nodes grp_node]; rewrite ?length_alter, ?length_app;
    repeat split; try done; lia.
Qed.

(** A variable part that ran through has made the [<variable>] element
    as the next node, given it the [_Unsigned] child first when the type
    is unsigned, and appended it to the parent's element as its last
    child. *)
Lemma objinfo_variable_emits H name attrs dtype shape st st' :
  wf st →
  objinfo_variable H name attrs dtype shape st = (Ok tt, st') →
  ∃ ty is_unsign shp parent rest pe,
    ncml_dtype dtype = Ok (ty, is_unsign)
    ∧ grp_node st !! pp.dirname name = Some parent
    ∧ nodes st' !! length (nodes st)
      = Some (mkElement (QName ns_nc "variable")
                [("name", pp.basename name); ("type", ty); ("shape", shp)]
                ((if is_unsign then [S (length (nodes st))] else []) ++ rest))
    ∧ (is_unsign = true →
       nodes st' !! S (length (nodes st)) = Some unsigned_attr)
    ∧ nodes st' !! parent = Some pe
    ∧ last (children pe) = Some (length (nodes st)).
Proof.
  intros Hwf. run.
  destruct (ncml_dtype dtype) as [[ty is_unsign]|] eqn:Hty; [|discriminate].
  cbn beta iota delta [fst snd nodes grp_node open_files].
  destruct (dataset_shape H attrs shape) as [shp|] eqn:Hshp; [|discriminate].
  cbn beta iota delta [fst snd nodes grp_node open_files].
  set (vid := length (nodes st)).
  set (V := nc_var [("name", pp.basename name); ("type", ty);
                    ("shape", String.concat " " shp)]).
  destruct (grp_node st !! pp.dirname name) as [parent|] eqn:Hparent;
    [|destruct is_unsign; cbn beta iota delta [fst snd nodes grp_node];
      rewrite Hparent; discriminate].
  pose proof (Hwf _ _ Hparent) as Hlt. fold vid in Hlt.
  destruct (nodes st !! parent) as [pe0|] eqn:Hpe0;
    [|apply lookup_ge_None in Hpe0; lia].
  intros Hrun.
  assert (∃ s3, do_attributes H vid attrs s3 = (Ok tt, st')
    ∧ nodes s3 !! vid
      = Some (mkElement (tag V) (attrib V)
                (if is_unsign then [S vid] else []))
    ∧ (is_unsign = true → nodes s3 !! S vid = Some unsigned_attr)
    ∧ nodes s3 !! parent = Some (add_child vid pe0))
    as (s3 & Hattrs & Hv & Hu & Hp).
  { destruct is_unsign; revert Hrun;
      cbn beta iota delta [fst snd nodes grp_node open_files];
      rewrite ?length_app; cbn [length]; fold vid; rewrite Hparent;
      cbn beta iota delta [fst snd nodes grp_node open_files];
      intros Hrun; eexists; (split; [exact Hrun|]); cbn [nodes];
      rewrite !list_lookup_alter;
      repeat (destruct (decide _) as [?|?]; try lia).
    - replace (vid + 1) with (S vid) by lia.
      assert (HV : ((nodes st ++ [V]) ++ [unsigned_attr]) !! vid = Some V).
      { rewrite lookup_app_l by (rewrite length_app; simpl; lia).
        by apply list_lookup_middle. }
      assert (HU : ((nodes st ++ [V]) ++ [unsigned_attr]) !! S vid
                   = Some unsigned_attr).
      { apply list_lookup_middle. rewrite length_app. simpl. lia. }
      assert (HP : ((nodes st ++ [V]) ++ [unsigned_attr]) !! parent
                   = Some pe0).
      { by do 2 apply lookup_app_l_Some. }
      fold unsigned_attr. rewrite HV, HU, HP. repeat split; done.
    - assert (HV : (nodes st ++ [V]) !! vid = Some V)
        by (by apply list_lookup_middle).
      assert (HP : (nodes st ++ [V]) !! parent = Some pe0)
        by (by apply lookup_app_l_Some).
      rewrite HV, HP. repeat split; done. }
  pose proof (do_attributes_extends H vid attrs s3) as [_ Hext].
  rewrite Hattrs in Hext. cbn [snd] in Hext.
  destruct (Hext _ _ Hv) as (ve & Hve & Hvt & Hva & [rest Hvc] & _).
  destruct (Hext _ _ Hp) as (pe & Hpe & _ & _ & _ & Hpsame).
  exists ty, is_unsign, (String.concat " " shp), parent, rest, pe.
  split; [reflexivity|]. split; [reflexivity|]. split.
  { rewrite Hve. destruct ve as [vt va vc]. cbn in Hvt, Hva, Hvc.
    by rewrite Hvt, Hva, Hvc. }
  split.
  { intros Hisu. destruct (Hext _ _ (Hu Hisu)) as (ue & Hue & _ & _ & _ & Hus).
    rewrite Hue, Hus; [done | lia]. }
  split; [exact Hpe|].
  rewrite Hpsame by lia. cbn [add_child children]. apply last_snoc.
Qed.

Lemma wf_after_dimension H name attrs shape st done s0 :
  wf st → objinfo_dimension H name attrs shape st = (Ok done, s0) → wf s0.
Proof.
  intros Hwf Hrun k id Hk.
  destruct (objinfo_dimension_ok _ _ _ _ _ _ _ Hrun) as (_ & Hg & Hlen).
  rewrite Hg in Hk. specialize (Hwf k id Hk). lia.
Qed.

(** [C8] A dataset of unsigned integer type for which the callback makes
    a variable (it is not a dimension only, and the visit raises
    nothing): the [<variable>] element is appended as the last child of
    the parent's element, its type is the name of the size in the table
    (so [long] for 8 bytes), and its first child is
    [<attribute name="_Unsigned" value="true"/>], ahead of every
    serialized attribute. *)
Theorem unsigned_variable_first_child H name attrs dtype shape st st' :
  wf st →
  get_class dtype = h5t.INTEGER → get_sign dtype = h5t.SGN_NONE →
  dimension_only H attrs = false →
  objinfo H (Dataset name attrs dtype shape) st = (Ok tt, st') →
  ∃ vid ty shp rest parent pe,
    length (nodes st) ≤ vid
    ∧ int_size_table (get_size dtype) = Ok ty
    ∧ nodes st' !! vid
      = Some (mkElement (QName ns_nc "variable")
                [("name", pp.basename name); ("type", ty); ("shape", shp)]
                (S vid :: rest))
    ∧ nodes st' !! S vid = Some unsigned_attr
    ∧ grp_node st !! pp.dirname name = Some parent
    ∧ nodes st' !! parent = Some pe
    ∧ last (children pe) = Some vid.
Proof.
  intros Hwf Hcls Hsgn Hdim. unfold objinfo. rewrite bind_run.
  destruct (objinfo_dimension H name attrs shape st) as [[done|e] s0] eqn:Hd;
    [|discriminate].
  destruct (objinfo_dimension_ok _ _ _ _ _ _ _ Hd) as (-> & Hg & Hlen).
  rewrite Hdim. intros Hrun.
  pose proof (wf_after_dimension _ _ _ _ _ _ _ Hwf Hd) as Hwf0.
  destruct (objinfo_variable_emits _ _ _ _ _ _ _ Hwf0 Hrun)
    as (ty & u & shp & parent & rest & pe & Hty & Hp & Hv & Hu & Hpe & Hlast).
  assert (u = true ∧ int_size_table (get_size dtype) = Ok ty) as [-> Hsize].
  { destruct (ncml_dtype_ok_inv _ _ _ Hty)
      as [(_ & -> & Hs)|[(Hc & _)|(_ & Hc)]].
    - split; [|exact Hs]. rewrite Hsgn. reflexivity.
    - rewrite Hcls in Hc. discriminate.
    - rewrite Hcls in Hc. apply list_elem_of_In in Hc. simpl in Hc.
      destruct Hc as [Hc|[Hc|[Hc|[]]]]; discriminate Hc. }
  exists (length (nodes s0)), ty, shp, rest, parent, pe.
  rewrite <- Hg. repeat split; try done. by apply Hu.
Qed.

Lemma unsigned_variable_first_child_witness :
  let H := Sample.one_file "/a.h5" (mkFile [] []) in
  let st := mkState [mkElement (QName ns_nc "netcdf") [] []] {["/" := 0]} 0 in
  let attrs := [("scale", Sample.attr (VArray [SInt 1; SInt 2]) Sample.i32 [2%N])] in
  let st' := (objinfo H (Dataset "/count" attrs Sample.u64 [2%N; 3%N]) st).2 in
  wf st
  ∧ ∃ vid ty shp rest parent pe,
      length (nodes st) ≤ vid
      ∧ int_size_table 8 = Ok ty
      ∧ nodes st' !! vid
        = Some (mkElement (QName ns_nc "variable")
                  [("name", pp.basename "/count"); ("type", ty); ("shape", shp)]
                  (S vid :: rest))
      ∧ nodes st' !! S vid = Some unsigned_attr
      ∧ grp_node st !! pp.dirname "/count" = Some parent
      ∧ nodes st' !! parent = Some pe
      ∧ last (children pe) = Some vid.
Proof.
  intros H st attrs st'.
  assert (Hwf : wf st).
  { intros k id Hk. cbn [st grp_node] in Hk.
    apply lookup_singleton_Some in Hk as [_ <-]. simpl. lia. }
  split; [exact Hwf|].
  apply (unsigned_variable_first_child H "/count" attrs Sample.u64
           [2%N; 3%N] st st' Hwf); reflexivity.
Defined.

Example unsigned_long_variable :
  let H := Sample.one_file "/a.h5" (mkFile [] []) in
  let st := mkState [mkElement (QName ns_nc "netcdf") [] []] {["/" := 0]} 0 in
  let attrs := [("scale", Sample.attr (VArray [SInt 1; SInt 2]) Sample.i32 [2%N])] in
  nodes (objinfo H (Dataset "/count" attrs Sample.u64 [2%N; 3%N]) st).2
  = [mkElement (QName ns_nc "netcdf") [] [1];
     mkElement (QName ns_nc "variable")
       [("name", "count"); ("type", "long"); ("shape", "2 3")] [2; 3];
     unsigned_attr;
     nc_attr [("name", "scale"); ("type", "int"); ("value", "1 2")]].
Proof. vm_compute. reflexivity. Qed.

Lemma news_nothing_new P ns : news P (length ns) ns.
Proof.
  split; [done|]. intros id e Hid Hb. apply lookup_lt_Some in Hid. lia.
Qed.

(** ** Well-formed states *)

Lemma wf_init : wf init_state.
Proof. intros k id Hk. cbn [init_state grp_node] in Hk. by rewrite lookup_empty in Hk. Qed.

Lemma wf_grows st st' :
  wf st → grp_node st' = grp_node st → length (nodes st) ≤ length (nodes st') →
  wf st'.
Proof. intros Hwf Hg Hlen k id Hk. rewrite Hg in Hk. specialize (Hwf k id Hk). lia. Qed.

Lemma do_attributes_wf H elem attrs st :
  wf st → wf (do_attributes H elem attrs st).2.
Proof.
  intros Hwf. apply (wf_grows st); [exact Hwf | |].
  - apply do_attributes_grp_node.
  - apply (do_attributes_extends H elem attrs st).
Qed.

Lemma wf_register st name e f p o :
  wf st →
  wf (mkState (alter f p (nodes st ++ [e]))
              (<[name := length (nodes st)]> (grp_node st)) o).
Proof.
  intros Hwf k id Hk. cbn [nodes grp_node] in *.
  rewrite length_alter, length_app. simpl.
  destruct (decide (name = k)) as [->|Hne].
  - rewrite lookup_insert_eq in Hk. injection Hk as <-. lia.
  - rewrite lookup_insert_ne in Hk by done. specialize (Hwf k id Hk). lia.
Qed.

Lemma objinfo_wf H obj st : wf st → wf (objinfo H obj st).2.
Proof.
  intros Hwf. destruct obj as [name attrs|name attrs dtype shape|name attrs].
  - run. repeat step; try exact Hwf; try apply do_attributes_wf.
    + by apply wf_register.
    + pose proof (wf_register st name (nc_group [("name", pp.basename name)])
                    id 0 (open_files st) Hwf) as Hw.
      rewrite list_alter_id in Hw by done. exact Hw.
  - apply (wf_grows st); [exact Hwf | apply objinfo_dataset_grp_node|].
    unfold objinfo. rewrite bind_run.
    destruct (objinfo_dimension H name attrs shape st) as [[done|e] s0] eqn:Hd.
    + destruct (objinfo_dimension_ok _ _ _ _ _ _ _ Hd) as (_ & _ & Hlen).
      destruct done; [exact Hlen|]. etrans; [exact Hlen|].
      assert (Hnews : news (λ _, True) (length (nodes s0))
                (nodes (objinfo_variable H name attrs dtype shape s0).2))
        by (apply objinfo_variable_news; try done; apply news_nothing_new).
      apply Hnews.
    + cbn [snd]. revert Hd. unfold objinfo_dimension. run_prims.
      repeat step; try discriminate; intros Heq; injection Heq as _ <-;
        cbn [nodes]; rewrite ?length_alter, ?length_app; lia.
  - exact Hwf.
Qed.

(** Every state a conversion leaves behind is well formed, whether it
    returned or raised. *)
Lemma h5toncml_wf H h5fname st : wf st → wf (h5toncml H h5fname st).2.
Proof.
  intros Hwf. destruct (File H h5fname) as [f|] eqn:Hf;
    [|run; rewrite Hf; exact Hwf].
  rewrite (h5toncml_stages H h5fname f st Hf).
  assert (H0 : wf (root_state H h5fname st)).
  { unfold root_state. rewrite list_alter_alter_eq. by apply wf_register. }
  pose proof (do_attributes_wf H (length (nodes st)) (f_attrs f) _ H0) as Ha.
  destruct (do_attributes H (length (nodes st)) (f_attrs f)
              (root_state H h5fname st)) as [[[]|e] sa]; [|exact Ha].
  assert (Hv : wf (for_each (objinfo H) (f_objects f) sa).2).
  { apply (for_each_inv wf); [|exact Ha]. intros x s _. apply objinfo_wf. }
  destruct (for_each (objinfo H) (f_objects f) sa) as [[[]|e] sb];
    [|exact Hv].
  exact Hv.
Qed.

(** ** Worked conversions *)

(** One root-level dataset [temp] of 4-byte floats, shape (10,), with a
    scalar string attribute: one [<variable>] under the root, no
    [<dimension>], the file closed again. *)
Example convert_temp :
  let H := Sample.one_file "/data/a.h5" (mkFile [] [Sample.temp]) in
  h5toncml H "/data/a.h5" init_state
  = (Ok 0,
     mkState
       [mkElement (QName ns_nc "netcdf")
          [(QName ns_xsi "schemaLocation",
            "http://www.unidata.ucar.edu/schemas/netcdf/ncml-2.2.xsd");
           ("location", "file:///data/a.h5")] [1];
        mkElement (QName ns_nc "variable")
          [("name", "temp"); ("type", "float"); ("shape", "10")] [2];
        nc_attr [("name", "units"); ("type", "String"); ("value", "K")]]
       {["/" := 0]} 0).
Proof. vm_compute. reflexivity. Qed.

(** A dimension without a variable next to a group with an unsigned
    dataset: the tags of the nodes, in the order they are made. *)
Example convert_mixed :
  let H := Sample.one_file "/data/a.h5"
             (mkFile [] [Sample.lat; Sample.grp; Sample.count]) in
  let '(doc, st) := h5toncml H "/data/a.h5" init_state in
  doc = Ok 0
  ∧ map (λ e, (tag e, children e)) (nodes st)
    = [(QName ns_nc "netcdf", [1; 2]);
       (QName ns_nc "dimension", []);
       (QName ns_nc "group", [3; 4]);
       (QName ns_nc "attribute", []);
       (QName ns_nc "variable", [5; 6]);
       (QName ns_nc "attribute", []);
       (QName ns_nc "attribute", [])].
Proof. vm_compute. split; reflexivity. Qed.

(** A committed datatype among the visited objects is refused. *)
Example convert_named_type :
  let H := Sample.one_file "/data/a.h5" (mkFile [] [Datatype "/t" []]) in
  (h5toncml H "/data/a.h5" init_state).1
  = Raise (TypeError "Unexpected HDF5 object: /t").
Proof. vm_compute. reflexivity. Qed.

(** * Further properties *)

(** ** The attribute serializer, element by element *)

Lemma alter_snoc_new {A} (f : A → A) (l : list A) (x : A) :
  alter f (length l) (l ++ [x]) = l ++ [f x].
Proof.
  rewrite <- (Nat.add_0_r (length l)) at 1. by rewrite alter_app_r.
Qed.

Lemma do_attribute_element H elem item st :
  do_attribute H elem item st =
  match attr_element H item with
  | Raise e => (Raise e, st)
  | Ok None => (Ok tt, st)
  | Ok (Some x) =>
      (Ok tt,
       mkState (alter (add_child (length (nodes st))) elem (nodes st ++ [x]))
               (grp_node st) (open_files st))
  end.
Proof.
  destruct item as [aname a]. unfold attr_element, attr_xml. run.
  cbn [fst snd]. repeat step; try reflexivity.
  by rewrite alter_snoc_new.
Qed.

Lemma add_children_nil e : add_children [] e = e.
Proof. destruct e. unfold add_children. cbn. by rewrite app_nil_r. Qed.

Lemma add_children_add_child n extra e :
  add_children extra (add_child n e) = add_children (n :: extra) e.
Proof.
  unfold add_children, add_child. cbn. by rewrite <- app_assoc.
Qed.

(** The loop of the serializer, run to its end or to the first
    exception. *)
Lemma do_attributes_run H elem attrs st :
  elem < length (nodes st) →
  do_attributes H elem attrs st =
  (outcome (attr_elements H attrs).2,
   mkState
     (alter (add_children (seq (length (nodes st))
                               (length (attr_elements H attrs).1)))
            elem (nodes st)
      ++ (attr_elements H attrs).1)
     (grp_node st) (open_files st)).
Proof.
  unfold do_attributes. revert st.
  induction attrs as [|item attrs IH]; intros st Hlt.
  - cbn. rewrite list_alter_id by apply add_children_nil.
    rewrite app_nil_r. by destruct st.
  - rewrite for_each_cons, do_attribute_element. cbn [attr_elements].
    destruct (attr_element H item) as [[x|]|e].
    + rewrite IH by (cbn [nodes]; rewrite length_alter, length_app; lia).
      cbn [nodes grp_node open_files].
      destruct (attr_elements H attrs) as [xs err]. cbn [fst snd length].
      f_equal. f_equal.
      rewrite length_alter, length_app. cbn [length].
      rewrite Nat.add_1_r, (alter_app_l _ _ [x]) by exact Hlt.
      rewrite (alter_app_l _ _ [x]) by (by rewrite length_alter).
      rewrite list_alter_alter_eq, <- app_assoc. cbn [app]. f_equal.
      apply list_alter_ext; [|reflexivity]. intros e _.
      cbn [compose seq]. apply add_children_add_child.
    + by apply IH.
    + cbn. rewrite list_alter_id by apply add_children_nil.
      rewrite app_nil_r. by destruct st.
Qed.

(** [X1] The serializer reads the value of each attribute when the
    iteration reaches it, and makes one [<attribute>] element for each
    attribute whose name is not internal, in iteration order and up to
    the first attribute whose reading, type or value raises; it appends
    them in that order to the children of the element it was given, and
    raises that first exception if there is one. Nothing else in the
    state changes. *)
Theorem do_attributes_effect H elem attrs st :
  elem < length (nodes st) →
  do_attributes H elem attrs st =
  (outcome (attr_elements H attrs).2,
   mkState
     (alter (add_children (seq (length (nodes st))
                               (length (attr_elements H attrs).1)))
            elem (nodes st)
      ++ (attr_elements H attrs).1)
     (grp_node st) (open_files st)).
Proof. apply do_attributes_run. Qed.

Lemma do_attributes_effect_witness :
  let H := Sample.one_file "/a.h5" (mkFile [] []) in
  let root := mkElement (QName ns_nc "netcdf") [] [] in
  do_attributes H 0
    [("CLASS", Sample.bytes_attr "DIMENSION_SCALE");
     ("count", Sample.attr (VArray [SInt 1; SInt 2; SInt 3]) Sample.u64 [3%N]);
     ("when", Sample.time_attr);
     ("units", Sample.bytes_attr "m")]
    (mkState [root] ∅ 0)
  = (Raise (TypeError "No NumPy equivalent for TypeTimeID exists"),
     mkState
       [add_child 1 root;
        nc_attr [("name", "count"); ("type", "long"); ("value", "1 2 3");
                 ("isUnsigned", "true")]]
       ∅ 0).
Proof.
  intros H root.
  rewrite (do_attributes_effect H 0 _ (mkState [root] ∅ 0)) by (simpl; lia).
  vm_compute. reflexivity.
Defined.

(** The value is read before the name is looked at: an attribute with
    an internal name that cannot be read stops the serializer too. And
    an attribute of string type over a null dataspace has no shape to
    take the length of. *)
Example do_attributes_reads_internal_names :
  do_attributes (Sample.one_file "/a.h5" (mkFile [] [])) 0
    [("units", Sample.bytes_attr "m"); ("NAME", Sample.time_attr)]
    (mkState [mkElement (QName ns_nc "netcdf") [] []] ∅ 0)
  = (Raise (TypeError "No NumPy equivalent for TypeTimeID exists"),
     mkState
       [mkElement (QName ns_nc "netcdf") [] [1];
        nc_attr [("name", "units"); ("type", "String"); ("value", "m")]]
       ∅ 0).
Proof. vm_compute. reflexivity. Qed.

Example do_attributes_null_dataspace :
  do_attributes (Sample.one_file "/a.h5" (mkFile [] [])) 0
    [("note", mkAttr (Ok VEmpty) Sample.str_t None)]
    (mkState [mkElement (QName ns_nc "netcdf") [] []] ∅ 0)
  = (Raise (TypeError "object of type 'NoneType' has no len()"),
     mkState [mkElement (QName ns_nc "netcdf") [] []] ∅ 0).
Proof. vm_compute. reflexivity. Qed.

(** ** The type translator, as a whole *)

Local Open Scope Z_scope.

(** [X2] The translator succeeds exactly on integers of 1, 2, 4 or 8
    bytes, floats of 4 or 8 bytes, and the string, opaque and compound
    classes; so a float of 1, 2 or 16 bytes is refused like any other
    size missing from its table. *)
Theorem ncml_dtype_succeeds_iff (tobj : TypeID) :
  is_ok (ncml_dtype tobj) = true
  ↔ (get_class tobj = h5t.INTEGER ∧ get_size tobj ∈ [1; 2; 4; 8])
    ∨ (get_class tobj = h5t.FLOAT ∧ get_size tobj ∈ [4; 8])
    ∨ get_class tobj ∈ [h5t.STRING; h5t.OPAQUE; h5t.COMPOUND].
Proof.
  destruct tobj as [cls sz sg]. cbn [get_class get_size].
  unfold ncml_dtype, int_size_table, float_size_table. cbn [get_class get_size].
  rewrite !list_elem_of_In. cbn [In].
  unfold h5t.INTEGER, h5t.FLOAT, h5t.TIME, h5t.STRING, h5t.BITFIELD,
    h5t.OPAQUE, h5t.COMPOUND, h5t.REFERENCE, h5t.ENUM, h5t.VLEN, h5t.ARRAY.
  repeat match goal with
  | |- context [?a =? ?b] =>
      let E := fresh "E" in
      destruct (a =? b) eqn:E;
      [apply Z.eqb_eq in E | apply Z.eqb_neq in E]
  end; cbn [is_ok]; split; intros Hx; try discriminate; try lia;
  intuition lia.
Qed.

(** [X3] Whatever the descriptor, the translator returns one of the
    nine NcML type names or raises one of [TypeError],
    [NotImplementedError], [ValueError] and [KeyError]; and it flags as
    unsigned nothing but integers whose sign code is [SGN_NONE]. *)
Theorem ncml_dtype_outcomes (tobj : TypeID) :
  match ncml_dtype tobj with
  | Ok (ncml_type, unsigned) =>
      ncml_type ∈ ncml_type_names
      ∧ (unsigned = true
         ↔ get_class tobj = h5t.INTEGER ∧ get_sign tobj = h5t.SGN_NONE)
  | Raise (TypeError _) | Raise (NotImplementedError _)
  | Raise (ValueError _) | Raise (KeyError _) => True
  | Raise _ => False
  end.
Proof.
  destruct (ncml_dtype tobj) as [[ty u]|e] eqn:Hr.
  - destruct (ncml_dtype_ok_inv _ _ _ Hr)
      as [(Hc & -> & Hs)|[(Hc & -> & Hs)|(-> & Hc)]].
    + split.
      * unfold int_size_table in Hs.
        repeat match type of Hs with
        | (if ?b then _ else _) = _ => destruct b
        end; try discriminate; injection Hs as <-;
        apply list_elem_of_In; cbn; tauto.
      * rewrite Z.eqb_eq. tauto.
    + split.
      * unfold float_size_table in Hs.
        repeat match type of Hs with
        | (if ?b then _ else _) = _ => destruct b
        end; try discriminate; injection Hs as <-;
        apply list_elem_of_In; cbn; tauto.
      * rewrite Hc. split; [discriminate | intros [Hx _]; discriminate Hx].
    + apply list_elem_of_In in Hc. cbn in Hc.
      destruct Hc as [Hc|[Hc|[Hc|[]]]]; injection Hc as Hc <-; rewrite <- Hc;
        (split; [apply list_elem_of_In; cbn; tauto|]);
        (split; [discriminate | intros [Hx _]; discriminate Hx]).
  - revert Hr. destruct tobj as [cls sz sg].
    unfold ncml_dtype, int_size_table, float_size_table.
    cbn [get_class get_size get_sign].
    repeat match goal with
    | |- context [if ?b then _ else _] => destruct b
    end; intros Hr; try discriminate; injection Hr as <-; exact I.
Qed.

Local Close Scope Z_scope.

(** ** The classifier and the order of attributes *)

(** [X4] An answer of the classifier does not depend on the order in
    which the host iterates the attributes: if it answers at all, it
    gives the same answer for every other order. And when every value
    can be read, the attributes that are not named [CLASS] do not
    matter to the answer. *)
Theorem is_dimscale_order_free H (attrs attrs' : list (string * result h5value))
    (b : bool) :
  (attrs ≡ₚ attrs' →
   is_dimscale H attrs = Ok b → is_dimscale H attrs' = Ok b)
  ∧ ((∀ n x, (n, x) ∈ attrs → is_ok x = true) →
     is_dimscale H attrs = Ok b
     ↔ is_dimscale H (filter (λ nx, nx.1 = "CLASS"%string) attrs) = Ok b).
Proof.
  split.
  - intros Hperm. rewrite !is_dimscale_spec.
    intros [Hall Hb]. split.
    + intros n x Hin. apply Hall. by rewrite Hperm.
    + rewrite Hb. by setoid_rewrite Hperm.
  - intros Hread. rewrite !is_dimscale_spec. split.
    + intros [Hall Hb]. split.
      * intros n x Hin. apply list_elem_of_filter in Hin as [_ Hin].
        by apply Hall.
      * rewrite Hb. split; intros (v & Hin & Hv); exists v; (split; [|done]).
        -- by apply list_elem_of_filter.
        -- by apply list_elem_of_filter in Hin as [_ Hin].
    + intros [Hall Hb]. split.
      * intros n x Hin. specialize (Hread n x Hin).
        destruct x as [v|e]; [|discriminate]. exists v. split; [done|].
        intros ->. destruct (Hall "CLASS"%string (Ok v)) as (v' & Hv' & Hc).
        { by apply list_elem_of_filter. }
        injection Hv' as <-. by apply Hc.
      * rewrite Hb. split; intros (v & Hin & Hv); exists v; (split; [|done]).
        -- by apply list_elem_of_filter in Hin as [_ Hin].
        -- by apply list_elem_of_filter.
Qed.

Lemma is_dimscale_order_free_witness :
  let H := Sample.one_file "/a.h5" (mkFile [] []) in
  is_dimscale H [("units", Ok (VScalar (SBytes "K")));
                 ("CLASS", Ok DIMENSION_SCALE)]
  = Ok true
  ∧ is_dimscale H [("CLASS", Ok DIMENSION_SCALE)] = Ok true.
Proof.
  intros H. split.
  - apply (proj1 (is_dimscale_order_free H
                    [("CLASS", Ok DIMENSION_SCALE);
                     ("units", Ok (VScalar (SBytes "K")))]
                    [("units", Ok (VScalar (SBytes "K")));
                     ("CLASS", Ok DIMENSION_SCALE)] true));
      [apply perm_swap | reflexivity].
  - apply (proj2 (is_dimscale_order_free H
                    [("CLASS", Ok DIMENSION_SCALE);
                     ("units", Ok (VScalar (SBytes "K")))]
                    [] true)); [|reflexivity].
    intros n x Hin. apply list_elem_of_In in Hin. simpl in Hin.
    destruct Hin as [Hin|[Hin|[]]]; injection Hin as <- <-; reflexivity.
Defined.

(** ** Paths *)

Local Open Scope string_scope.

Lemma rsplit_cons c r :
  pp.rsplit (String c r) =
  match pp.rsplit r with
  | (String c' h, t) => (String c (String c' h), t)
  | (EmptyString, _) =>
      if pp.is_slash c then (String c EmptyString, r)
      else (EmptyString, String c r)
  end.
Proof. cbn [pp.rsplit]. by destruct (pp.rsplit r) as [[|c' h] t]. Qed.

Lemma rsplit_no_slash b : has_slash b = false → pp.rsplit b = ("", b).
Proof.
  induction b as [|c b IH]; [reflexivity|]. cbn [has_slash].
  intros Hs. apply orb_false_iff in Hs as [Hc Hb].
  rewrite rsplit_cons, (IH Hb), Hc. reflexivity.
Qed.

Lemma rsplit_join d b :
  has_slash b = false → pp.rsplit (d ++ "/" ++ b) = (d ++ "/", b).
Proof.
  intros Hb. induction d as [|c d IH].
  - change ("" ++ "/" ++ b) with (String "/" b).
    rewrite rsplit_cons, (rsplit_no_slash b Hb). reflexivity.
  - change (String c d ++ "/" ++ b) with (String c (d ++ "/" ++ b)).
    rewrite rsplit_cons, IH. by destruct d.
Qed.

Lemma rstrip_fixed_not_all_slashes d :
  pp.rstrip d = d → d ≠ "" → pp.all_slashes d = false.
Proof.
  induction d as [|c d IH]; [done|]. cbn [pp.rstrip pp.all_slashes].
  intros Hfix _. destruct (pp.rstrip d) as [|c' d'] eqn:Hd.
  - destruct (pp.is_slash c); [discriminate | reflexivity].
  - injection Hfix as Hfix. rewrite IH; [apply andb_false_r | done |].
    by intros ->.
Qed.

Lemma all_slashes_app_false d x :
  pp.all_slashes d = false → pp.all_slashes (d ++ x) = false.
Proof.
  induction d as [|c d IH]; [done|].
  change (String c d ++ x) with (String c (d ++ x)). cbn [pp.all_slashes].
  intros Hs. apply andb_false_iff in Hs as [Hc|Hd].
  - by rewrite Hc.
  - rewrite (IH Hd). apply andb_false_r.
Qed.

Lemma rstrip_cons c r :
  pp.rstrip (String c r) =
  match pp.rstrip r with
  | EmptyString => if pp.is_slash c then EmptyString else String c EmptyString
  | String c' r' => String c (String c' r')
  end.
Proof. reflexivity. Qed.

Lemma rstrip_app_slash d :
  pp.rstrip d = d → d ≠ "" → pp.rstrip (d ++ "/") = d.
Proof.
  induction d as [|c d IH]; [done|]. intros Hfix _.
  change (String c d ++ "/") with (String c (d ++ "/")).
  rewrite rstrip_cons in Hfix |- *. destruct d as [|c' d'].
  - exact Hfix.
  - destruct (pp.rstrip (String c' d')) as [|c2 d2] eqn:Hd.
    + destruct (pp.is_slash c); discriminate.
    + injection Hfix as Hfix. rewrite IH by (congruence || done).
      reflexivity.
Qed.

(** [X5] How the walker names an object and finds its parent. For a
    leaf name without a slash, the basename of [dir/leaf] is the leaf;
    the parent of a top-level object [/leaf] is the root path [/]; and
    the parent of [dir/leaf] is [dir] when [dir] is not empty and does
    not end in a slash. *)
Theorem path_of_child (dir leaf : string) :
  has_slash leaf = false →
  pp.basename (dir ++ "/" ++ leaf) = leaf
  ∧ pp.dirname ("/" ++ leaf) = "/"
  ∧ (dir ≠ "" → pp.rstrip dir = dir →
     pp.dirname (dir ++ "/" ++ leaf) = dir).
Proof.
  intros Hleaf. unfold pp.basename, pp.dirname. split; [|split].
  - by rewrite rsplit_join.
  - change ("/" ++ leaf) with ("" ++ "/" ++ leaf).
    rewrite (rsplit_join "" leaf Hleaf). reflexivity.
  - intros Hne Hfix. rewrite rsplit_join by done. cbn [fst].
    destruct (dir ++ "/") as [|c s] eqn:Hd; [by destruct dir|].
    rewrite <- Hd.
    rewrite (all_slashes_app_false dir "/")
      by (by apply rstrip_fixed_not_all_slashes).
    by apply rstrip_app_slash.
Qed.

Lemma path_of_child_witness :
  pp.basename "/grid/temp" = "temp"
  ∧ pp.dirname "/temp" = "/"
  ∧ pp.dirname "/grid/temp" = "/grid".
Proof.
  destruct (path_of_child "/grid" "temp" eq_refl) as (Hb & Hr & Hd).
  split; [exact Hb|]. split; [exact Hr|].
  apply Hd; [discriminate | reflexivity].
Defined.

Local Close Scope string_scope.

(** ** Groups *)

Lemma alter_snoc_old {A} (f : A → A) (l : list A) (x : A) (i : nat) :
  i < length l → alter f i (l ++ [x]) = alter f i l ++ [x].
Proof. apply alter_app_l. Qed.

Lemma alter_snoc_at {A} (f : A → A) (l : list A) (x : A) (i : nat) :
  i = length l → alter f i (l ++ [x]) = l ++ [f x].
Proof. intros ->. apply alter_snoc_new. Qed.

(** [X6] A group whose path is not yet registered and whose parent is:
    the callback makes one [<group>] element named by the basename,
    registers it under the group's path, appends it to the parent's
    element, and serializes the group's attributes into it, so the
    group's children are its [<attribute>] elements in order. *)
Theorem objinfo_group_effect H name attrs st parent :
  grp_node st !! name = None →
  grp_node st !! pp.dirname name = Some parent →
  parent < length (nodes st) →
  let n := length (nodes st) in
  let xs := (attr_elements H attrs).1 in
  objinfo H (Group name attrs) st
  = (outcome (attr_elements H attrs).2,
     mkState
       (alter (add_child n) parent (nodes st)
        ++ add_children (seq (S n) (length xs))
             (nc_group [("name", pp.basename name)])
           :: xs)
       (<[name := n]> (grp_node st)) (open_files st)).
Proof.
  intros Hnew Hparent Hlt n xs. run.
  rewrite Hnew. rewrite bool_decide_eq_false_2 by (by intros [? ?]).
  cbn beta iota delta [fst snd nodes grp_node open_files].
  rewrite lookup_insert_ne by (intros Heq; congruence).
  rewrite Hparent. cbn beta iota delta [fst snd nodes grp_node open_files].
  rewrite do_attributes_run
    by (cbn [nodes]; rewrite length_alter, length_app; cbn [length]; lia).
  cbn [nodes grp_node open_files]. fold n xs. f_equal. f_equal.
  rewrite length_alter, length_app. cbn [length]. rewrite Nat.add_1_r.
  rewrite alter_snoc_old by exact Hlt.
  rewrite alter_snoc_at by (by rewrite length_alter).
  rewrite <- app_assoc. reflexivity.
Qed.

Lemma objinfo_group_effect_witness :
  let H := Sample.one_file "/a.h5" (mkFile [] []) in
  let root := mkElement (QName ns_nc "netcdf") [] [] in
  objinfo H Sample.grp (mkState [root] {["/" := 0]} 0)
  = (Ok tt,
     mkState
       [add_child 1 root;
        mkElement (QName ns_nc "group") [("name", "g")] [2];
        nc_attr [("name", "title"); ("type", "String"); ("value", "inner")]]
       (<["/g" := 1]> {["/" := 0]}) 0).
Proof.
  intros H root.
  rewrite (objinfo_group_effect H "/g" [("title", Sample.bytes_attr "inner")]
             (mkState [root] {["/" := 0]} 0) 0)
    by (reflexivity || (simpl; lia)).
  vm_compute. reflexivity.
Defined.

(** [X7] The two ways a group is refused. A group whose path is
    registered raises the duplicate-node [RuntimeError] and changes
    nothing. A group whose parent path is not registered raises
    [KeyError] on that path, but only after its element was made and its
    own path registered: both stay behind. *)
Theorem objinfo_group_refused H name attrs st :
  (is_Some (grp_node st !! name) →
   objinfo H (Group name attrs) st
   = (Raise (RuntimeError (name ++ ": XML node already exists")), st))
  ∧ (grp_node st !! name = None →
     grp_node st !! pp.dirname name = None →
     pp.dirname name ≠ name →
     objinfo H (Group name attrs) st
     = (Raise (KeyError (pp.dirname name)),
        mkState (nodes st ++ [nc_group [("name", pp.basename name)]])
                (<[name := length (nodes st)]> (grp_node st))
                (open_files st))).
Proof.
  split.
  - intros Hseen. run. rewrite (bool_decide_eq_true_2 _ Hseen). reflexivity.
  - intros Hnew Hparent Hne. run.
    rewrite Hnew. rewrite bool_decide_eq_false_2 by (by intros [? ?]).
    cbn beta iota delta [fst snd nodes grp_node open_files].
    rewrite lookup_insert_ne by done. rewrite Hparent. reflexivity.
Qed.

Lemma objinfo_group_refused_witness :
  let H := Sample.one_file "/a.h5" (mkFile [] []) in
  objinfo H (Group "/g" []) (mkState [] {["/g" := 0]} 0)
  = (Raise (RuntimeError "/g: XML node already exists"),
     mkState [] {["/g" := 0]} 0)
  ∧ objinfo H (Group "/g/h" []) init_state
    = (Raise (KeyError "/g"),
       mkState [nc_group [("name", "h")]] {["/g/h" := 0]} 0).
Proof.
  intros H. split.
  - apply (proj1 (objinfo_group_refused H "/g" []
                    (mkState [] {["/g" := 0]} 0))).
    vm_compute. eauto.
  - apply (proj2 (objinfo_group_refused H "/g/h" [] init_state));
      [reflexivity | reflexivity | discriminate].
Defined.

(** ** What a returned document implies *)

Lemma do_attributes_outcome H elem attrs st :
  (do_attributes H elem attrs st).1 = outcome (attr_elements H attrs).2.
Proof.
  unfold do_attributes. revert st.
  induction attrs as [|item attrs IH]; intros st; [reflexivity|].
  rewrite for_each_cons, do_attribute_element. cbn [attr_elements].
  destruct (attr_element H item) as [[x|]|e]; [| apply IH | reflexivity].
  rewrite IH. by destruct (attr_elements H attrs).
Qed.

(** Every turn of a loop that ran through ran through. *)
Lemma for_each_ok_each {A} (body : A → M unit) (l : list A) st st' x :
  for_each body l st = (Ok tt, st') → x ∈ l →
  ∃ s s', body x s = (Ok tt, s').
Proof.
  revert st. induction l as [|y l IH]; intros st Hrun Hx.
  { by apply elem_of_nil in Hx. }
  rewrite for_each_cons in Hrun.
  destruct (body y st) as [[[]|e] s1] eqn:Hy; [|discriminate].
  apply elem_of_cons in Hx as [->|Hx]; [by exists st, s1 | by eapply IH].
Qed.

Lemma outcome_ok err : outcome err = Ok tt → err = None.
Proof. by destruct err. Qed.

Lemma do_attributes_ok H elem attrs st st' :
  do_attributes H elem attrs st = (Ok tt, st') →
  (attr_elements H attrs).2 = None.
Proof.
  intros Hrun. apply outcome_ok.
  rewrite <- (do_attributes_outcome H elem attrs st). by rewrite Hrun.
Qed.

Lemma objinfo_ok_convertible H obj st st' :
  objinfo H obj st = (Ok tt, st') → convertible H obj.
Proof.
  destruct obj as [name attrs|name attrs dtype shape|name attrs];
    cbn [convertible].
  - run. repeat step; try discriminate. apply do_attributes_ok.
  - intros Hrun. split; [|split].
    + revert Hrun. run.
      by destruct (is_dimscale H (items attrs)) as [b|e].
    + intros Hd. revert Hrun. run. rewrite Hd.
      cbn beta iota delta [fst snd nodes grp_node open_files].
      destruct shape as [|d shape]; [discriminate|].
      split; [done|]. revert Hrun.
      cbn beta iota delta [first_extent fst snd nodes grp_node open_files].
      destruct (grp_node st !! pp.dirname name); [|discriminate].
      cbn beta iota delta [fst snd nodes grp_node open_files].
      destruct (attrs_get attrs "NAME" (VScalar (SBytes ""))) as [v|e];
        [|discriminate].
      cbn beta iota delta [fst snd nodes grp_node open_files].
      destruct v as [[b| | |]| | |]; cbn [startswith]; try discriminate.
      intros _. by exists b.
    + intros Hd. revert Hrun. unfold objinfo. rewrite bind_run.
      destruct (objinfo_dimension H name attrs shape st) as [[done|e] s0] eqn:E;
        [|discriminate].
      destruct (objinfo_dimension_ok _ _ _ _ _ _ _ E) as (-> & _).
      rewrite Hd. unfold objinfo_variable. run_prims.
      repeat step; try discriminate; intros Hrun;
        repeat split; by apply do_attributes_ok in Hrun.
  - run. discriminate.
Qed.

(** [X8] A conversion that returns a document has met no object it
    cannot convert: the file opened, the attributes of the root and of
    every group serialize, no committed datatype was visited, every
    dimension scale has an axis and a byte-string [NAME] (or none), and
    every dataset that is not a dimension only has a type in the table,
    a shape the host resolves and attributes that serialize. *)
Theorem h5toncml_ok_convertible H h5fname st root st' :
  h5toncml H h5fname st = (Ok root, st') →
  ∃ f, File H h5fname = Some f
       ∧ (attr_elements H (f_attrs f)).2 = None
       ∧ ∀ obj, obj ∈ f_objects f → convertible H obj.
Proof.
  intros Hrun. destruct (File H h5fname) as [f|] eqn:Hf;
    [|revert Hrun; run; rewrite Hf; discriminate].
  exists f. split; [reflexivity|].
  rewrite (h5toncml_stages H h5fname f st Hf) in Hrun.
  destruct (do_attributes H (length (nodes st)) (f_attrs f)
              (root_state H h5fname st)) as [[[]|e] sa] eqn:Ha;
    [|discriminate].
  destruct (for_each (objinfo H) (f_objects f) sa) as [[[]|e] sb] eqn:Hv;
    [|discriminate].
  split; [by apply do_attributes_ok in Ha|].
  intros obj Hobj.
  destruct (for_each_ok_each _ _ _ _ _ Hv Hobj) as (s & s' & Hs).
  by apply objinfo_ok_convertible in Hs.
Qed.

Lemma h5toncml_ok_convertible_witness :
  let H := Sample.one_file "/a.h5"
             (mkFile [] [Sample.lat; Sample.grp; Sample.count]) in
  ∃ f, File H "/a.h5" = Some f
       ∧ (attr_elements H (f_attrs f)).2 = None
       ∧ ∀ obj, obj ∈ f_objects f → convertible H obj.
Proof.
  intros H.
  apply (h5toncml_ok_convertible H "/a.h5" init_state 0
           (h5toncml H "/a.h5" init_state).2).
  vm_compute. reflexivity.
Defined.


(** ** Datasets *)

(** The variable part, run to the end or to the first attribute that
    raises: the [<variable>] element, the [_Unsigned] element when the
    type is unsigned, and the elements of the attributes are the next
    nodes, in this order, and the last two kinds are the variable's
    children. *)
Lemma objinfo_variable_effect H name attrs dtype shape st parent ty u shp :
  ncml_dtype dtype = Ok (ty, u) →
  dataset_shape H attrs shape = Ok shp →
  grp_node st !! pp.dirname name = Some parent →
  parent < length (nodes st) →
  let n := length (nodes st) in
  let kids := (if u then [unsigned_attr] else []) ++ (attr_elements H attrs).1 in
  objinfo_variable H name attrs dtype shape st
  = (outcome (attr_elements H attrs).2,
     mkState
       (alter (add_child n) parent (nodes st)
        ++ add_children (seq (S n) (length kids))
             (nc_var [("name", pp.basename name); ("type", ty);
                      ("shape", String.concat " " shp)])
           :: kids)
       (grp_node st) (open_files st)).
Proof.
  intros Hty Hshp Hparent Hlt n kids. unfold objinfo_variable. run_prims.
  rewrite Hty. cbn beta iota delta [fst snd nodes grp_node open_files].
  rewrite Hshp. cbn beta iota delta [fst snd nodes grp_node open_files].
  fold n. set (V := nc_var _).
  destruct u; cbn beta iota delta [fst snd nodes grp_node open_files];
    rewrite Hparent;
    cbn beta iota delta [fst snd nodes grp_node open_files];
    rewrite do_attributes_run
      by (cbn [nodes]; rewrite !length_alter, !length_app; cbn [length]; lia);
    cbn [nodes grp_node open_files]; f_equal; f_equal;
    rewrite !length_alter, !length_app; cbn [length]; fold n;
    unfold kids; cbn [app length].
  - fold unsigned_attr. rewrite !Nat.add_1_r.
    rewrite (alter_snoc_old _ (nodes st ++ [V]))
      by (rewrite length_app; cbn [length]; lia).
    rewrite (alter_snoc_at _ (nodes st)) by reflexivity.
    rewrite (alter_snoc_old _ (nodes st ++ [add_child (S n) V]))
      by (rewrite length_app; cbn [length]; lia).
    rewrite (alter_snoc_old _ (nodes st)) by exact Hlt.
    rewrite (alter_snoc_old _ (alter (add_child n) parent (nodes st)
                               ++ [add_child (S n) V]))
      by (rewrite length_app, length_alter; cbn [length]; fold n; lia).
    rewrite alter_snoc_at by (by rewrite length_alter).
    rewrite add_children_add_child, <- !app_assoc. reflexivity.
  - rewrite Nat.add_1_r.
    rewrite (alter_snoc_old _ (nodes st)) by exact Hlt.
    rewrite alter_snoc_at by (by rewrite length_alter).
    rewrite <- !app_assoc. reflexivity.
Qed.

(** [X9] A dataset for which the classifier answers [False], with a
    type in the table, a shape the host resolves and a registered
    parent: the callback appends one [<variable>] element (basename,
    type name, space-joined shape) to the parent's element; its children
    are the [_Unsigned] element, when the type is unsigned, followed by
    the elements of its attributes up to the first that raises. *)
Theorem objinfo_plain_dataset H name attrs dtype shape st parent ty u shp :
  is_dimscale H (items attrs) = Ok false →
  ncml_dtype dtype = Ok (ty, u) →
  dataset_shape H attrs shape = Ok shp →
  grp_node st !! pp.dirname name = Some parent →
  parent < length (nodes st) →
  let n := length (nodes st) in
  let kids := (if u then [unsigned_attr] else []) ++ (attr_elements H attrs).1 in
  objinfo H (Dataset name attrs dtype shape) st
  = (outcome (attr_elements H attrs).2,
     mkState
       (alter (add_child n) parent (nodes st)
        ++ add_children (seq (S n) (length kids))
             (nc_var [("name", pp.basename name); ("type", ty);
                      ("shape", String.concat " " shp)])
           :: kids)
       (grp_node st) (open_files st)).
Proof.
  intros Hdim Hty Hshp Hparent Hlt n kids.
  unfold objinfo, objinfo_dimension. rewrite Hdim, bind_run.
  cbn beta iota delta [mret M_ret].
  by apply objinfo_variable_effect.
Qed.

Lemma objinfo_plain_dataset_witness :
  let H := Sample.one_file "/a.h5" (mkFile [] []) in
  let root := mkElement (QName ns_nc "netcdf") [] [] in
  objinfo H (Dataset "/count" [("units", Sample.bytes_attr "m")]
               Sample.u64 [2%N; 3%N])
          (mkState [root] {["/" := 0]} 0)
  = (Ok tt,
     mkState
       [add_child 1 root;
        mkElement (QName ns_nc "variable")
          [("name", "count"); ("type", "long"); ("shape", "2 3")] [2; 3];
        unsigned_attr;
        nc_attr [("name", "units"); ("type", "String"); ("value", "m")]]
       {["/" := 0]} 0).
Proof.
  intros H root.
  rewrite (objinfo_plain_dataset H "/count" [("units", Sample.bytes_attr "m")]
             Sample.u64 [2%N; 3%N] (mkState [root] {["/" := 0]} 0)
             0 "long"%string true ["2"%string; "3"%string])
    by (reflexivity || (simpl; lia)).
  vm_compute. reflexivity.
Defined.

Lemma add_child_add_child a b e :
  add_child b (add_child a e) = add_children [a; b] e.
Proof. unfold add_children, add_child. cbn. by rewrite <- app_assoc. Qed.

(** [X10] A dataset for which the classifier answers [True], with an
    axis and a [NAME] that is read as a byte string not starting with
    the marker, is written twice: the callback appends a [<dimension>]
    element and then a [<variable>] element to the parent's element, in
    this order, and serializes the attributes into the variable. *)
Theorem objinfo_dimension_and_variable H name attrs dtype d shape st parent
    NAME ty u shp :
  is_dimscale H (items attrs) = Ok true →
  attrs_get attrs "NAME" (VScalar (SBytes "")) = Ok NAME →
  startswith NAME dim_only_marker = Ok false →
  ncml_dtype dtype = Ok (ty, u) →
  dataset_shape H attrs (d :: shape) = Ok shp →
  grp_node st !! pp.dirname name = Some parent →
  parent < length (nodes st) →
  let n := length (nodes st) in
  let kids := (if u then [unsigned_attr] else []) ++ (attr_elements H attrs).1 in
  objinfo H (Dataset name attrs dtype (d :: shape)) st
  = (outcome (attr_elements H attrs).2,
     mkState
       (alter (add_children [n; S n]) parent (nodes st)
        ++ nc_dim [("name", pp.basename name); ("length", str_N d)]
        :: add_children (seq (S (S n)) (length kids))
             (nc_var [("name", pp.basename name); ("type", ty);
                      ("shape", String.concat " " shp)])
        :: kids)
       (grp_node st) (open_files st)).
Proof.
  intros Hdim Hget Hname Hty Hshp Hparent Hlt n kids.
  unfold objinfo, objinfo_dimension. run_prims.
  rewrite Hdim. cbn [first_extent].
  cbn beta iota delta [fst snd nodes grp_node open_files].
  rewrite Hparent.
  cbn beta iota delta [fst snd nodes grp_node open_files].
  rewrite Hget.
  cbn beta iota delta [fst snd nodes grp_node open_files].
  rewrite Hname.
  cbn beta iota delta [fst snd nodes grp_node open_files].
  rewrite (objinfo_variable_effect H name attrs dtype (d :: shape) _ parent
             ty u shp Hty Hshp)
    by (cbn [nodes grp_node]; rewrite ?length_alter, ?length_app;
        cbn [length]; (exact Hparent || lia)).
  cbn [nodes grp_node open_files]. fold kids.
  rewrite !length_alter, !length_app. cbn [length]. fold n.
  rewrite Nat.add_1_r, (alter_snoc_old _ (nodes st)) by exact Hlt.
  rewrite alter_snoc_old by (by rewrite length_alter).
  rewrite list_alter_alter_eq, <- app_assoc. cbn [app].
  f_equal. f_equal. f_equal. apply list_alter_ext; [|reflexivity].
  intros e _. apply add_child_add_child.
Qed.

Lemma objinfo_dimension_and_variable_witness :
  let H := Sample.one_file "/a.h5" (mkFile [] []) in
  let root := mkElement (QName ns_nc "netcdf") [] [] in
  objinfo H (Dataset "/lat" [("CLASS", Sample.bytes_attr "DIMENSION_SCALE")]
               Sample.f32 [5%N])
          (mkState [root] {["/" := 0]} 0)
  = (Ok tt,
     mkState
       [add_children [1; 2] root;
        nc_dim [("name", "lat"); ("length", "5")];
        nc_var [("name", "lat"); ("type", "float"); ("shape", "5")]]
       {["/" := 0]} 0).
Proof.
  intros H root.
  rewrite (objinfo_dimension_and_variable H "/lat"
             [("CLASS", Sample.bytes_attr "DIMENSION_SCALE")]
             Sample.f32 5%N [] (mkState [root] {["/" := 0]} 0)
             0 (VScalar (SBytes "")) "float"%string false ["5"%string])
    by (reflexivity || (simpl; lia)).
  vm_compute. reflexivity.
Defined.

Lemma mapM_result_length {A B} (f : A → result B) (l : list A) (k : list B) :
  mapM f l = Ok k → length k = length l.
Proof.
  revert k. induction l as [|x l IH]; intros k; cbn.
  - intros Hk. by injection Hk as <-.
  - destruct (f x) as [y|e]; cbn; [|discriminate].
    destruct (mapM f l) as [k'|e]; cbn; [|discriminate].
    intros Hk. injection Hk as <-. cbn. f_equal. by apply IH.
Qed.

(** [X11] The shape of a variable has one entry per axis whenever it is
    resolved; without a [DIMENSION_LIST] attribute the entries are the
    extents in decimal, and for a scalar dataset the shape is empty
    whether or not [DIMENSION_LIST] is present (the host is not asked). *)
Theorem dataset_shape_rank H attrs shape :
  (∀ shp, dataset_shape H attrs shape = Ok shp → length shp = length shape)
  ∧ (has_attr attrs "DIMENSION_LIST" = false →
     dataset_shape H attrs shape = Ok (map str_N shape))
  ∧ dataset_shape H attrs [] = Ok [].
Proof.
  unfold dataset_shape. split; [|split].
  - intros shp. destruct (has_attr attrs "DIMENSION_LIST").
    + intros Hm. apply mapM_result_length in Hm. by rewrite length_seq in Hm.
    + intros Hm. injection Hm as <-. apply length_map.
  - by intros ->.
  - by destruct (has_attr attrs "DIMENSION_LIST").
Qed.

(** ** The store only grows *)

Lemma grows_refl ns : grows ns ns.
Proof. split; [done|]. intros id e Hid. by exists e. Qed.

Lemma grows_new ns ns' e : grows ns ns' → grows ns (ns' ++ [e]).
Proof.
  intros [Hlen Hns]. split; [rewrite length_app; lia|].
  intros id e0 Hid. destruct (Hns id e0 Hid) as (e' & Hid' & Hrest).
  exists e'. split; [by apply lookup_app_l_Some | exact Hrest].
Qed.

Lemma grows_alter_new ns ns' f p :
  grows ns ns' → length ns ≤ p → grows ns (alter f p ns').
Proof.
  intros [Hlen Hns] Hp. split; [by rewrite length_alter|].
  intros id e0 Hid. destruct (Hns id e0 Hid) as (e' & Hid' & Hrest).
  exists e'. split; [|exact Hrest].
  rewrite list_lookup_alter_ne; [exact Hid'|].
  apply lookup_lt_Some in Hid. lia.
Qed.

Lemma grows_add_child ns ns' p c :
  grows ns ns' → grows ns (alter (add_child c) p ns').
Proof.
  intros [Hlen Hns]. split; [by rewrite length_alter|].
  intros id e0 Hid.
  destruct (Hns id e0 Hid) as (e' & Hid' & Ht & Ha & Hc).
  rewrite list_lookup_alter. destruct (decide (p = id)) as [->|Hne].
  - rewrite Hid'. exists (add_child c e'). repeat split; try done.
    cbn [add_child children]. by apply prefix_app_r.
  - by exists e'.
Qed.

Create HintDb grows.
#[local] Hint Resolve grows_new grows_alter_new grows_add_child : grows.

Lemma do_attribute_grows H elem item ns st :
  grows ns (nodes st) → grows ns (nodes (do_attribute H elem item st).2).
Proof.
  destruct item as [aname a]. intros Hst. pose proof (proj1 Hst).
  run. repeat step; cbn [nodes]; auto 6 with grows lia.
Qed.

Lemma do_attributes_grows H elem attrs ns st :
  grows ns (nodes st) → grows ns (nodes (do_attributes H elem attrs st).2).
Proof.
  apply (for_each_inv (λ s, grows ns (nodes s))).
  intros x s _. apply do_attribute_grows.
Qed.

Lemma objinfo_grows H obj ns st :
  grows ns (nodes st) → grows ns (nodes (objinfo H obj st).2).
Proof.
  intros Hst. pose proof (proj1 Hst).
  destruct obj; run; repeat step; try apply do_attributes_grows;
    cbn [nodes]; rewrite ?length_app; cbn [length];
    auto 10 with grows lia.
Qed.

Lemma visititems_grows H objs ns st :
  grows ns (nodes st) →
  grows ns (nodes (for_each (objinfo H) objs st).2).
Proof.
  apply (for_each_inv (λ s, grows ns (nodes s))).
  intros x s _. apply objinfo_grows.
Qed.

(** [X12] Neither the callback nor a whole conversion, returning or
    raising, ever removes an element, changes the tag or the attributes
    of an element that existed before, or removes or reorders its
    children: children are only appended. *)
Theorem store_only_grows H st :
  (∀ obj, grows (nodes st) (nodes (objinfo H obj st).2))
  ∧ (∀ h5fname, grows (nodes st) (nodes (h5toncml H h5fname st).2)).
Proof.
  split.
  - intros obj. apply objinfo_grows, grows_refl.
  - intros h5fname. destruct (File H h5fname) as [f|] eqn:Hf;
      [|run; rewrite Hf; apply grows_refl].
    rewrite (h5toncml_stages H h5fname f st Hf).
    assert (H0 : grows (nodes st) (nodes (root_state H h5fname st))).
    { cbn [root_state nodes].
      do 2 (apply grows_alter_new; [|done]). apply grows_new, grows_refl. }
    pose proof (do_attributes_grows H (length (nodes st)) (f_attrs f) _ _ H0)
      as Ha.
    destruct (do_attributes H (length (nodes st)) (f_attrs f)
                (root_state H h5fname st)) as [[[]|e] sa]; [|exact Ha].
    cbn [snd] in Ha.
    pose proof (visititems_grows H (f_objects f) _ _ Ha) as Hv.
    destruct (for_each (objinfo H) (f_objects f) sa) as [[[]|e] sb];
      exact Hv.
Qed.

(** ** The root element and the registered paths *)

(** The callback never rebinds a registered path. *)
Lemma objinfo_keeps_bindings H obj st k v :
  grp_node st !! k = Some v → grp_node (objinfo H obj st).2 !! k = Some v.
Proof.
  intros Hk. destruct obj as [name attrs|name attrs dtype shape|name attrs].
  - assert (Hins : ∀ id, grp_node st !! name = None →
              <[name := id]> (grp_node st) !! k = Some v).
    { intros id Hn. rewrite lookup_insert_ne; [exact Hk | congruence]. }
    run. destruct (grp_node st !! name) as [id|] eqn:Hn.
    + rewrite bool_decide_eq_true_2 by eauto. exact Hk.
    + rewrite bool_decide_eq_false_2 by (by intros [? ?]).
      cbn beta iota delta [fst snd nodes grp_node open_files].
      repeat step; rewrite ?do_attributes_grp_node; cbn [grp_node];
        by apply Hins.
  - by rewrite objinfo_dataset_grp_node.
  - exact Hk.
Qed.

Lemma visititems_keeps_bindings H objs st k v :
  grp_node st !! k = Some v →
  grp_node (for_each (objinfo H) objs st).2 !! k = Some v.
Proof.
  apply (for_each_inv (λ s, grp_node s !! k = Some v)).
  intros x s _. apply objinfo_keeps_bindings.
Qed.

Lemma root_state_root H h5fname st :
  nodes (root_state H h5fname st) !! length (nodes st)
  = Some (mkElement (QName ns_nc "netcdf")
            [(QName ns_xsi "schemaLocation",
              "http://www.unidata.ucar.edu/schemas/netcdf/ncml-2.2.xsd"%string);
             ("location"%string, file_url H h5fname)] []).
Proof.
  cbn [root_state nodes]. rewrite !alter_snoc_new.
  by rewrite list_lookup_middle.
Qed.

(** [X13] The document a conversion returns is rooted at the node made
    by this call; that node is a [netcdf] element whose attributes are
    exactly the schema location and the location of the file, in this
    order, and it is what [/] is registered to when the call returns. *)
Theorem h5toncml_root H h5fname st root st' :
  h5toncml H h5fname st = (Ok root, st') →
  root = length (nodes st)
  ∧ grp_node st' !! "/" = Some root
  ∧ ∃ kids,
      nodes st' !! root
      = Some (mkElement (QName ns_nc "netcdf")
                [(QName ns_xsi "schemaLocation",
                  "http://www.unidata.ucar.edu/schemas/netcdf/ncml-2.2.xsd"%string);
                 ("location"%string, file_url H h5fname)] kids).
Proof.
  intros Hrun. destruct (File H h5fname) as [f|] eqn:Hf;
    [|revert Hrun; run; rewrite Hf; discriminate].
  rewrite (h5toncml_stages H h5fname f st Hf) in Hrun.
  set (s0 := root_state H h5fname st) in *.
  pose proof (do_attributes_grows H (length (nodes st)) (f_attrs f) _ s0
                (grows_refl _)) as Ga.
  pose proof (do_attributes_grp_node H (length (nodes st)) (f_attrs f) s0)
    as Da.
  destruct (do_attributes H (length (nodes st)) (f_attrs f) s0)
    as [[[]|e] sa]; [|discriminate].
  cbn [snd] in Ga, Da.
  pose proof (visititems_grows H (f_objects f) _ sa Ga) as Gv.
  pose proof (visititems_keeps_bindings H (f_objects f) sa "/"
                (length (nodes st))) as Dv.
  destruct (for_each (objinfo H) (f_objects f) sa) as [[[]|e] sb];
    [|discriminate].
  injection Hrun as <- <-. cbn [snd nodes grp_node] in *.
  split; [reflexivity|]. split.
  - apply Dv. rewrite Da. apply lookup_insert_eq.
  - destruct Gv as [_ Gv].
    destruct (Gv _ _ (root_state_root H h5fname st))
      as ([t a kids] & Hl & Ht & Hatt & _).
    cbn in Ht, Hatt. subst t a. by exists kids.
Qed.

Lemma h5toncml_root_witness :
  let H := Sample.one_file "/a.h5" (mkFile [] [Sample.temp]) in
  let st' := (h5toncml H "/a.h5" init_state).2 in
  grp_node st' !! "/" = Some 0
  ∧ ∃ kids,
      nodes st' !! 0
      = Some (mkElement (QName ns_nc "netcdf")
                [(QName ns_xsi "schemaLocation",
                  "http://www.unidata.ucar.edu/schemas/netcdf/ncml-2.2.xsd"%string);
                 ("location"%string, "file:///a.h5"%string)] kids).
Proof.
  intros H st'.
  destruct (h5toncml_root H "/a.h5" init_state 0 st') as (_ & Hg & Hk).
  - vm_compute. reflexivity.
  - split; [exact Hg | exact Hk].
Defined.

Lemma objinfo_group_ok_registers H name attrs st st' :
  objinfo H (Group name attrs) st = (Ok tt, st') →
  grp_node st !! name = None
  ∧ grp_node st' = <[name := length (nodes st)]> (grp_node st).
Proof.
  run. destruct (grp_node st !! name) as [id|] eqn:Hn.
  - rewrite bool_decide_eq_true_2 by eauto. discriminate.
  - rewrite bool_decide_eq_false_2 by (by intros [? ?]).
    cbn beta iota delta [fst snd nodes grp_node open_files].
    repeat step; try discriminate. intros Hrun. split; [reflexivity|].
    match type of Hrun with
    | do_attributes H ?e ?a ?s = _ =>
        pose proof (do_attributes_grp_node H e a s) as Hg
    end.
    by rewrite Hrun in Hg.
Qed.

Lemma visititems_registration H objs st st' :
  for_each (objinfo H) objs st = (Ok tt, st') →
  NoDup (group_names objs)
  ∧ (∀ g, g ∈ group_names objs → grp_node st !! g = None)
  ∧ dom (grp_node st')
    = dom (grp_node st) ∪ list_to_set (group_names objs).
Proof.
  revert st. induction objs as [|obj objs IH]; intros st Hrun.
  { injection Hrun as <-. cbn. split; [constructor|].
    split; [by intros g Hg; apply elem_of_nil in Hg | set_solver]. }
  rewrite for_each_cons in Hrun.
  destruct (objinfo H obj st) as [[[]|e] s1] eqn:Hobj; [|discriminate].
  destruct (IH s1 Hrun) as (Hnd & Hnew & Hdom).
  destruct obj as [name attrs|name attrs dtype shape|name attrs].
  - destruct (objinfo_group_ok_registers _ _ _ _ _ Hobj) as [Hn Hg].
    change (group_names (Group name attrs :: objs))
      with (name :: group_names objs).
    split; [|split].
    + constructor; [|exact Hnd]. intros Hin. specialize (Hnew name Hin).
      rewrite Hg, lookup_insert_eq in Hnew. discriminate.
    + intros g Hin. apply elem_of_cons in Hin as [->|Hin]; [exact Hn|].
      specialize (Hnew g Hin). rewrite Hg in Hnew.
      by apply lookup_insert_None in Hnew as [? _].
    + rewrite Hdom, Hg, dom_insert_L. set_solver.
  - pose proof (objinfo_dataset_grp_node H name attrs dtype shape st) as Hg.
    rewrite Hobj in Hg. cbn [snd] in Hg. rewrite Hg in Hnew, Hdom.
    by change (group_names (Dataset name attrs dtype shape :: objs))
      with (group_names objs).
  - revert Hobj. run. discriminate.
Qed.

(** [X14] What a conversion that returns has registered. The paths of
    the groups of the file are pairwise distinct, none is [/] and none
    was registered when the call began; afterwards the registered paths
    are exactly those from before, [/] and the group paths; and every
    path other than [/] that was bound before is bound to the same
    element. *)
Theorem h5toncml_registers H h5fname st root st' :
  h5toncml H h5fname st = (Ok root, st') →
  ∃ f, File H h5fname = Some f
    ∧ NoDup ("/"%string :: group_names (f_objects f))
    ∧ (∀ g, g ∈ group_names (f_objects f) → grp_node st !! g = None)
    ∧ dom (grp_node st')
      = dom (grp_node st) ∪ {["/"%string]}
        ∪ list_to_set (group_names (f_objects f))
    ∧ (∀ k v, k ≠ "/"%string → grp_node st !! k = Some v →
              grp_node st' !! k = Some v).
Proof.
  intros Hrun. destruct (File H h5fname) as [f|] eqn:Hf;
    [|revert Hrun; run; rewrite Hf; discriminate].
  exists f. split; [reflexivity|].
  rewrite (h5toncml_stages H h5fname f st Hf) in Hrun.
  pose proof (do_attributes_grp_node H (length (nodes st)) (f_attrs f)
                (root_state H h5fname st)) as Da.
  destruct (do_attributes H (length (nodes st)) (f_attrs f)
              (root_state H h5fname st)) as [[[]|e] sa]; [|discriminate].
  cbn [snd root_state grp_node] in Da.
  pose proof (λ k v, visititems_keeps_bindings H (f_objects f) sa k v) as Kv.
  destruct (for_each (objinfo H) (f_objects f) sa) as [[[]|e] sb] eqn:Hv;
    [|discriminate].
  destruct (visititems_registration _ _ _ _ Hv) as (Hnd & Hnew & Hdom).
  injection Hrun as <- <-. cbn [snd grp_node] in *.
  assert (Hfresh : ∀ g, g ∈ group_names (f_objects f) →
                        g ≠ "/"%string ∧ grp_node st !! g = None).
  { intros g Hg. specialize (Hnew g Hg). rewrite Da in Hnew.
    apply lookup_insert_None in Hnew as [? ?]. by split. }
  split; [|split; [|split]].
  - constructor; [|exact Hnd]. intros Hin. by destruct (Hfresh _ Hin).
  - intros g Hg. by destruct (Hfresh g Hg).
  - rewrite Hdom, Da, dom_insert_L. set_solver.
  - intros k v Hk Hb. apply Kv. rewrite Da. by rewrite lookup_insert_ne.
Qed.

Lemma h5toncml_registers_witness :
  let H := Sample.one_file "/a.h5" (mkFile [] [Sample.grp; Sample.count]) in
  let st' := (h5toncml H "/a.h5" init_state).2 in
  ∃ f, File H "/a.h5" = Some f
    ∧ NoDup ("/"%string :: group_names (f_objects f))
    ∧ (∀ g, g ∈ group_names (f_objects f) → grp_node init_state !! g = None)
    ∧ dom (grp_node st')
      = dom (grp_node init_state) ∪ {["/"%string]}
        ∪ list_to_set (group_names (f_objects f))
    ∧ (∀ k v, k ≠ "/"%string → grp_node init_state !! k = Some v →
              grp_node st' !! k = Some v).
Proof.
  intros H st'.
  apply (h5toncml_registers H "/a.h5" init_state 0 st').
  vm_compute. reflexivity.
Defined.

(** ** The command line *)

(** [X15] [main] refuses an XPath that is a non-empty string with
    [NotImplementedError] before the file is opened and before the
    state changes; with no [--xpath], or with the empty string, it runs
    the conversion, prints the text of the returned document, and lets
    every exception of the conversion through. *)
Theorem main_xpath H tostring (a : args) st :
  (∀ c x, xpath a = Some (String c x) →
     main H tostring a st
     = (Raise (NotImplementedError "NcML XPath not yet supported"), st))
  ∧ (xpath a = None ∨ xpath a = Some ""%string →
     main H tostring a st
     = match h5toncml H (h5f a) st with
       | (Ok ncmldoc, st') => (Ok (tostring (nodes st') ncmldoc), st')
       | (Raise e, st') => (Raise e, st')
       end).
Proof.
  unfold main, xpath_given. split.
  - intros c x ->. reflexivity.
  - intros [-> | ->]; reflexivity.
Qed.

(** ** Text strings where bytes are expected *)

Lemma elem_of_items n x attrs :
  (n, x) ∈ items attrs ↔ ∃ a, (n, a) ∈ attrs ∧ a_value a = x.
Proof.
  unfold items. rewrite list_elem_of_fmap. split.
  - intros ([n' a] & Heq & Hin). injection Heq as -> ->. by exists a.
  - intros (a & Hin & <-). by exists (n, a).
Qed.

(** [C10] The classifier tests [CLASS] against a byte string only. For
    a dataset whose [CLASS] attribute is read as a text string,
    [DIMENSION_SCALE] included: the classifier never answers [True], and
    no [<dimension>] element is among the nodes the callback makes,
    however it ends. When every attribute value can be read the
    classifier answers [False] and the callback takes the variable
    part: with a type in the table, a shape the host resolves and a
    registered parent it appends the [<variable>] element of the dataset
    to the parent's element and serializes the attributes into it. A
    callback that returns has made that [<variable>] element, last child
    of the parent's element. *)
Theorem text_CLASS_is_a_variable H name attrs dtype shape st :
  (∀ a, ("CLASS"%string, a) ∈ attrs →
        ∃ s, a_value a = Ok (VScalar (SStr s))) →
  let d := Dataset name attrs dtype shape in
  let n := length (nodes st) in
  is_dimscale H (items attrs) ≠ Ok true
  ∧ (∀ id e, n ≤ id →
       nodes (objinfo H d st).2 !! id = Some e →
       tag e ≠ QName ns_nc "dimension")
  ∧ ((∀ aname a, (aname, a) ∈ attrs → is_ok (a_value a) = true) →
     is_dimscale H (items attrs) = Ok false
     ∧ objinfo H d st = objinfo_variable H name attrs dtype shape st
     ∧ ∀ parent ty u shp,
         ncml_dtype dtype = Ok (ty, u) →
         dataset_shape H attrs shape = Ok shp →
         grp_node st !! pp.dirname name = Some parent →
         parent < n →
         let kids :=
           (if u then [unsigned_attr] else []) ++ (attr_elements H attrs).1 in
         objinfo H d st
         = (outcome (attr_elements H attrs).2,
            mkState
              (alter (add_child n) parent (nodes st)
               ++ add_children (seq (S n) (length kids))
                    (nc_var [("name", pp.basename name); ("type", ty);
                             ("shape", String.concat " " shp)])
                  :: kids)
              (grp_node st) (open_files st)))
  ∧ (∀ st', wf st → objinfo H d st = (Ok tt, st') →
       ∃ e parent pe,
         nodes st' !! n = Some e
         ∧ tag e = QName ns_nc "variable"
         ∧ ("name"%string, pp.basename name) ∈ attrib e
         ∧ grp_node st !! pp.dirname name = Some parent
         ∧ nodes st' !! parent = Some pe
         ∧ last (children pe) = Some n).
Proof.
  intros Hclass d n.
  assert (Hcmp : ∀ v, ("CLASS"%string, Ok v) ∈ items attrs →
                      eq_bytes H v "DIMENSION_SCALE" = Ok false).
  { intros v Hin. apply elem_of_items in Hin as (a & Hin & Hv).
    destruct (Hclass a Hin) as [s Hs]. rewrite Hs in Hv.
    by injection Hv as <-. }
  assert (Hnot : is_dimscale H (items attrs) ≠ Ok true).
  { intros Hd. apply is_dimscale_spec in Hd as (_ & Hb).
    destruct (proj1 Hb eq_refl) as (v & Hin & Hv).
    rewrite (Hcmp v Hin) in Hv. discriminate. }
  assert (Hfalse : is_dimscale H (items attrs) = Ok false →
            objinfo H d st = objinfo_variable H name attrs dtype shape st).
  { intros Hd. unfold d, objinfo, objinfo_dimension.
    rewrite Hd, bind_run. reflexivity. }
  assert (Hraise : ∀ e, is_dimscale H (items attrs) = Raise e →
            objinfo H d st = (Raise e, st)).
  { intros e Hd. unfold d. run_objinfo. by rewrite Hd. }
  split; [exact Hnot|]. split; [|split].
  - intros id e Hb Hid.
    destruct (is_dimscale H (items attrs)) as [[|]|e'] eqn:Hd; [done| |].
    + rewrite (Hfalse eq_refl) in Hid.
      assert (Hnews : news (λ e, tag e ≠ QName ns_nc "dimension") n
                (nodes (objinfo_variable H name attrs dtype shape st).2)).
      { apply objinfo_variable_news; try done. apply news_nothing_new. }
      destruct Hnews as [_ Hns]. by destruct (Hns id e Hid Hb).
    + rewrite (Hraise e' eq_refl) in Hid. cbn [snd] in Hid.
      apply lookup_lt_Some in Hid. unfold n in Hb. lia.
  - intros Hread.
    assert (Hd : is_dimscale H (items attrs) = Ok false).
    { apply is_dimscale_spec. split.
      - intros aname x Hin. pose proof Hin as Hin'.
        apply elem_of_items in Hin' as (a & Ha & Hx).
        specialize (Hread aname a Ha). rewrite Hx in Hread.
        destruct x as [v|]; [|discriminate]. exists v. split; [done|].
        intros ->. exists false. by apply Hcmp.
      - split; [discriminate|]. intros (v & Hin & Hv).
        rewrite (Hcmp v Hin) in Hv. discriminate. }
    split; [exact Hd|]. split; [exact (Hfalse Hd)|].
    intros parent ty u shp Hty Hshp Hparent Hlt kids.
    rewrite (Hfalse Hd). by apply objinfo_variable_effect.
  - intros st' Hwf Hrun.
    destruct (is_dimscale H (items attrs)) as [[|]|e'] eqn:Hd; [done| |].
    + rewrite (Hfalse eq_refl) in Hrun.
      destruct (objinfo_variable_emits _ _ _ _ _ _ _ Hwf Hrun)
        as (ty & u & shp & parent & rest & pe & _ & Hp & Hv & _ & Hpe & Hlast).
      eexists _, parent, pe. split; [exact Hv|].
      repeat split; try done. cbn [attrib]. apply list_elem_of_In. by left.
    + rewrite (Hraise e' eq_refl) in Hrun. discriminate.
Qed.

Lemma text_CLASS_is_a_variable_witness :
  let H := Sample.one_file "/a.h5" (mkFile [] []) in
  let root := mkElement (QName ns_nc "netcdf") [] [] in
  let attrs := [("CLASS", Sample.text_attr "DIMENSION_SCALE");
                ("units", Sample.bytes_attr "m")] in
  is_dimscale H (items attrs) = Ok false
  ∧ objinfo H (Dataset "/lat" attrs Sample.f32 [5%N])
            (mkState [root] {["/" := 0]} 0)
    = (Ok tt,
       mkState
         [add_child 1 root;
          mkElement (QName ns_nc "variable")
            [("name", "lat"); ("type", "float"); ("shape", "5")] [2];
          nc_attr [("name", "units"); ("type", "String"); ("value", "m")]]
         {["/" := 0]} 0).
Proof.
  intros H root attrs.
  destruct (text_CLASS_is_a_variable H "/lat" attrs Sample.f32 [5%N]
              (mkState [root] {["/" := 0]} 0)) as (_ & _ & Hvar & _).
  - intros a Ha. apply list_elem_of_In in Ha. simpl in Ha.
    destruct Ha as [Ha|[Ha|[]]]; [|discriminate Ha].
    injection Ha as <-. by eexists.
  - destruct Hvar as (Hd & _ & Hrun).
    + intros aname a Ha. apply list_elem_of_In in Ha. simpl in Ha.
      destruct Ha as [Ha|[Ha|[]]]; injection Ha as <- <-; reflexivity.
    + split; [exact Hd|].
      rewrite (Hrun 0 "float"%string false ["5"%string])
        by (reflexivity || (simpl; lia)).
      vm_compute. reflexivity.
Defined.

Lemma attr_elements_raise H attrs item e :
  item ∈ attrs → attr_element H item = Raise e →
  ∃ e', (attr_elements H attrs).2 = Some e'.
Proof.
  intros Hin Hitem. induction attrs as [|x attrs IH].
  { by apply elem_of_nil in Hin. }
  cbn [attr_elements].
  destruct (attr_element H x) as [[y|]|e0] eqn:Hx; [| |by eexists].
  - apply elem_of_cons in Hin as [->|Hin]; [congruence|].
    destruct (IH Hin) as [e' He']. exists e'.
    by destruct (attr_elements H attrs).
  - apply elem_of_cons in Hin as [->|Hin]; [congruence|]. by apply IH.
Qed.

(** [X16] An attribute of string type whose value is read as a text
    string, not a byte string, cannot be serialized: whatever the shape
    of its dataspace (a null dataspace apart, which has no shape), its
    turn of the loop raises [AttributeError] (text has no [decode])
    without touching the state, so the serializer raises for every
    attribute collection that holds one under a name that is not
    internal. *)
Theorem text_valued_attribute_raises H elem aname a s shape st :
  is_internal aname = false →
  get_class (a_type a) = h5t.STRING →
  a_value a = Ok (VScalar (SStr s)) →
  a_shape a = Some shape →
  do_attribute H elem (aname, a) st = (Raise (AttributeError "decode"), st)
  ∧ ∀ attrs, (aname, a) ∈ attrs →
      is_ok (do_attributes H elem attrs st).1 = false.
Proof.
  intros Hint Hcls Hval Hshape.
  assert (Hel : attr_element H (aname, a) = Raise (AttributeError "decode")).
  { unfold attr_element. cbn [fst snd]. rewrite Hint.
    destruct a as [v [cls sz sg] shp]. cbn in Hcls, Hval, Hshape.
    subst cls v shp. cbn. by destruct shape. }
  split.
  - by rewrite do_attribute_element, Hel.
  - intros attrs Hin. rewrite do_attributes_outcome.
    by destruct (attr_elements_raise H attrs _ _ Hin Hel) as [e' ->].
Qed.

Lemma text_valued_attribute_raises_witness :
  let H := Sample.one_file "/a.h5" (mkFile [] []) in
  do_attribute H 0 ("units", Sample.text_attr "m") init_state
  = (Raise (AttributeError "decode"), init_state).
Proof.
  intros H.
  apply (text_valued_attribute_raises H 0 "units" (Sample.text_attr "m") "m"
           [] init_state); reflexivity.
Defined.

(** [X17] A dataset for which the classifier answers [True] and whose
    [NAME] is read as a text string: the [<dimension>] element is
    appended to the parent's element first, and then the test for the
    marker raises [TypeError], since text cannot start with a byte
    string; no [<variable>] element is made. *)
Theorem dimension_scale_text_NAME H name attrs dtype d shape st parent s :
  is_dimscale H (items attrs) = Ok true →
  attrs_get attrs "NAME" (VScalar (SBytes "")) = Ok (VScalar (SStr s)) →
  grp_node st !! pp.dirname name = Some parent →
  objinfo H (Dataset name attrs dtype (d :: shape)) st
  = (Raise (TypeError
       "startswith first arg must be str or a tuple of str, not bytes"),
     mkState
       (alter (add_child (length (nodes st))) parent
          (nodes st ++ [nc_dim [("name", pp.basename name);
                                ("length", str_N d)]]))
       (grp_node st) (open_files st)).
Proof.
  intros Hdim Hname Hparent. run. rewrite Hdim. cbn [first_extent].
  cbn beta iota delta [fst snd nodes grp_node open_files].
  rewrite Hparent, Hname. reflexivity.
Qed.

Lemma dimension_scale_text_NAME_witness :
  let H := Sample.one_file "/a.h5" (mkFile [] []) in
  let root := mkElement (QName ns_nc "netcdf") [] [] in
  objinfo H (Dataset "/lat"
               [("CLASS", Sample.bytes_attr "DIMENSION_SCALE");
                ("NAME", Sample.text_attr "lat")] Sample.f32 [5%N])
          (mkState [root] {["/" := 0]} 0)
  = (Raise (TypeError
       "startswith first arg must be str or a tuple of str, not bytes"),
     mkState [add_child 1 root; nc_dim [("name", "lat"); ("length", "5")]]
             {["/" := 0]} 0).
Proof.
  intros H root.
  exact (dimension_scale_text_NAME H "/lat"
           [("CLASS", Sample.bytes_attr "DIMENSION_SCALE");
            ("NAME", Sample.text_attr "lat")] Sample.f32 5%N []
           (mkState [root] {["/" := 0]} 0) 0 "lat"%string
           eq_refl eq_refl eq_refl).
Defined.

(** [X18] How a dataset for which the classifier answers [False] is
    refused. When its type or its shape raises, the callback raises the
    same exception and the state is untouched. When its parent's path is
    not registered, the callback raises [KeyError] on that path after
    the [<variable>] element (and its [_Unsigned] child) was made: the
    elements stay in the store, attached to no parent. *)
Theorem objinfo_plain_dataset_refused H name attrs dtype shape st :
  is_dimscale H (items attrs) = Ok false →
  (∀ e, ncml_dtype dtype = Raise e →
        objinfo H (Dataset name attrs dtype shape) st = (Raise e, st))
  ∧ (∀ e, is_ok (ncml_dtype dtype) = true →
          dataset_shape H attrs shape = Raise e →
          objinfo H (Dataset name attrs dtype shape) st = (Raise e, st))
  ∧ (∀ ty u shp,
       ncml_dtype dtype = Ok (ty, u) →
       dataset_shape H attrs shape = Ok shp →
       grp_node st !! pp.dirname name = None →
       objinfo H (Dataset name attrs dtype shape) st
       = (Raise (KeyError (pp.dirname name)),
          mkState
            (nodes st
             ++ add_children (if u then [S (length (nodes st))] else [])
                  (nc_var [("name", pp.basename name); ("type", ty);
                           ("shape", String.concat " " shp)])
                :: (if u then [unsigned_attr] else []))
            (grp_node st) (open_files st))).
Proof.
  intros Hdim. split; [|split].
  - intros e Hty. run. rewrite Hdim. run_prims. by rewrite Hty.
  - intros e Hok Hshp. run. rewrite Hdim. run_prims.
    destruct (ncml_dtype dtype) as [[ty u]|]; [|discriminate].
    cbn beta iota delta [fst snd nodes grp_node open_files].
    by rewrite Hshp.
  - intros ty u shp Hty Hshp Hparent. run. rewrite Hdim. run_prims.
    rewrite Hty. cbn beta iota delta [fst snd nodes grp_node open_files].
    rewrite Hshp. cbn beta iota delta [fst snd nodes grp_node open_files].
    destruct u; cbn beta iota delta [fst snd nodes grp_node open_files];
      rewrite Hparent; f_equal; f_equal.
    rewrite length_app. cbn [length]. rewrite Nat.add_1_r.
    rewrite (alter_snoc_old _ (nodes st ++ [_]))
      by (rewrite length_app; cbn [length]; lia).
    rewrite alter_snoc_new, <- app_assoc. reflexivity.
Qed.

Lemma objinfo_plain_dataset_refused_witness :
  let H := Sample.one_file "/a.h5" (mkFile [] []) in
  objinfo H Sample.clock init_state
  = (Raise (TypeError "H5T_TIME datatype not supported in NcML"), init_state)
  ∧ objinfo H Sample.count init_state
    = (Raise (KeyError "/g"),
       mkState
         [mkElement (QName ns_nc "variable")
            [("name", "count"); ("type", "long"); ("shape", "2 3")] [1];
          unsigned_attr] ∅ 0).
Proof.
  intros H. split.
  - apply (proj1 (objinfo_plain_dataset_refused H "/clock" [] Sample.time_t
                    [4%N] init_state eq_refl)).
    reflexivity.
  - apply (proj2 (proj2 (objinfo_plain_dataset_refused H "/g/count"
                    [("scale",
                      Sample.attr (VArray [SInt 1; SInt 2; SInt 3])
                        Sample.i32 [3%N])]
                    Sample.u64 [2%N; 3%N] init_state eq_refl))
             "long"%string true ["2"%string; "3"%string]); reflexivity.
Defined.

(** [X19] A file without objects: the conversion makes the root element
    and the elements of the root's attributes, which become the root's
    children in order, and registers [/]. If every attribute serializes
    the file is closed and the root returned; otherwise the exception of
    the first failing attribute is raised and the file stays open. *)
Theorem h5toncml_no_objects H h5fname f st :
  File H h5fname = Some f → f_objects f = [] →
  let n := length (nodes st) in
  let xs := (attr_elements H (f_attrs f)).1 in
  let err := (attr_elements H (f_attrs f)).2 in
  h5toncml H h5fname st
  = (match err with None => Ok n | Some e => Raise e end,
     mkState
       (nodes st
        ++ mkElement (QName ns_nc "netcdf")
             [(QName ns_xsi "schemaLocation",
               "http://www.unidata.ucar.edu/schemas/netcdf/ncml-2.2.xsd"%string);
              ("location"%string, file_url H h5fname)]
             (seq (S n) (length xs))
           :: xs)
       (<["/" := n]> (grp_node st))
       (match err with
        | None => open_files st
        | Some _ => S (open_files st)
        end)).
Proof.
  intros Hf Hobjs n xs err. rewrite (h5toncml_stages H h5fname f st Hf).
  rewrite do_attributes_run
    by (cbn [root_state nodes]; rewrite !length_alter, length_app;
        cbn [length]; lia).
  fold xs err. cbn [root_state nodes grp_node open_files].
  rewrite !length_alter, length_app. cbn [length]. fold n.
  rewrite Nat.add_1_r, !(alter_snoc_at _ (nodes st)) by reflexivity.
  rewrite <- app_assoc. cbn [app].
  unfold put_attrib, add_children. cbn [tag attrib children dict_set app].
  destruct err as [e|]; cbn [outcome]; [reflexivity|].
  rewrite Hobjs. reflexivity.
Qed.

Lemma h5toncml_no_objects_witness :
  let H := Sample.one_file "/a.h5"
             (mkFile [("title", Sample.bytes_attr "empty")] []) in
  h5toncml H "/a.h5" init_state
  = (Ok 0,
     mkState
       [mkElement (QName ns_nc "netcdf")
          [(QName ns_xsi "schemaLocation",
            "http://www.unidata.ucar.edu/schemas/netcdf/ncml-2.2.xsd"%string);
           ("location"%string, "file:///a.h5"%string)] [1];
        nc_attr [("name", "title"); ("type", "String"); ("value", "empty")]]
       {["/" := 0]} 0).
Proof.
  intros H.
  rewrite (h5toncml_no_objects H "/a.h5"
             (mkFile [("title", Sample.bytes_attr "empty")] []) init_state
             eq_refl eq_refl).
  vm_compute. reflexivity.
Defined.

(** [X20] Every entry of [grp_node] refers to an element that exists:
    this holds in a fresh interpreter, and the callback and a whole
    conversion keep it, whether they return or raise. *)
Theorem wf_preserved H st :
  wf init_state
  ∧ (wf st →
     (∀ obj, wf (objinfo H obj st).2)
     ∧ (∀ h5fname, wf (h5toncml H h5fname st).2)).
Proof.
  split; [apply wf_init|]. intros Hwf. split.
  - intros obj. by apply objinfo_wf.
  - intros h5fname. by apply h5toncml_wf.
Qed.

Lemma wf_preserved_witness :
  let H := Sample.one_file "/a.h5" (mkFile [] [Sample.grp; Sample.clock]) in
  wf (h5toncml H "/a.h5" init_state).2.
Proof.
  intros H.
  apply (proj2 (wf_preserved H init_state)).
  apply (proj1 (wf_preserved H init_state)).
Defined.
